(** * Moderation decision logic of the Triton Python backend model

    Shallow embedding of [models/moderation-decision-logic/1/model.py]
    (class [TritonPythonModel]) and the properties of its decision fusion.

    Modelling conventions.
    - Python [float] and the numpy float tensors are exact rationals [Q]:
      comparisons and the arithmetic of [max] and [np.mean] are the exact
      ones; rounding, infinities and NaN are outside the model, and so is
      the narrowing to float32 of the confidence in the response.
      Equality of confidences is stated with [==] (Qeq) where arithmetic
      is involved.
    - Python [str] is [string], one [ascii] per code point below 256;
      [lower], [strip], [join] and [in] follow Python on that range.
      BYTES tensor elements are represented by the text they decode to,
      so a failing [decode('utf-8')] is outside the model.
    - The tensors have the ranks the indexing of the source presupposes:
      [safety_scores] is a matrix whose first row is read, the others
      are vectors.
    - A raised exception is the left injection of the [Exc] monad; the
      evaluation order of the source is the order of the binds.  What is
      said of the verdict of a bundle is said of the runs that return
      one.
    - [json.dumps] of the metadata dictionary is kept structured
      ([Metadata]) instead of being flattened to text; its refusal of
      values it cannot serialise is outside the model.
    - Logging has no effect on any result and is left out, and so is
      [self.model_config], which no operation reads. *)

From Stdlib Require Import ZArith QArith String Ascii List Lia Lqa.
From Stdlib Require Import DecimalString DecimalZ Permutation.
From stdpp Require Import base gmap strings list.

Local Open Scope Q_scope.
Local Open Scope string_scope.

(** ** Python built-ins used by the model *)

Module Py.

(** [str.isspace] on a single character (code points below 256):
    TAB..CR, FS..US, SPACE, NEL and NBSP. *)
Definition isspace (c : ascii) : bool :=
  let n := N_of_ascii c in
  ((9 <=? n) && (n <=? 13) || (28 <=? n) && (n <=? 32)
   || (n =? 133) || (n =? 160))%N.

(** [str.lower] on a single character: A-Z and the Latin-1 capitals
    (all of U+00C0..U+00DE but the multiplication sign) move up by 32. *)
Definition lower_char (c : ascii) : ascii :=
  let n := N_of_ascii c in
  if ((65 <=? n) && (n <=? 90)
      || (192 <=? n) && (n <=? 222) && negb (n =? 215))%N
  then ascii_of_N (n + 32) else c.

Fixpoint lower (s : string) : string :=
  match s with
  | EmptyString => EmptyString
  | String c r => String (lower_char c) (lower r)
  end.

Fixpoint lstrip (s : string) : string :=
  match s with
  | EmptyString => EmptyString
  | String c r => if isspace c then lstrip r else s
  end.

Fixpoint rstrip (s : string) : string :=
  match s with
  | EmptyString => EmptyString
  | String c r =>
      match rstrip r with
      | EmptyString => if isspace c then EmptyString else String c EmptyString
      | r' => String c r'
      end
  end.

(** [s.strip()] *)
Definition strip (s : string) : string := rstrip (lstrip s).

(** [sep.join(l)] *)
Fixpoint join (sep : string) (l : list string) : string :=
  match l with
  | [] => EmptyString
  | [x] => x
  | x :: rest => x +:+ sep +:+ join sep rest
  end.

(** [k in t] on strings: [k] occurs in [t] as a contiguous substring. *)
Fixpoint str_in (k t : string) : bool :=
  String.prefix k t ||
  match t with
  | EmptyString => false
  | String _ t' => str_in k t'
  end.

(** Truth value of a string: [not s] holds exactly for the empty one. *)
Definition truthy (s : string) : bool :=
  match s with EmptyString => false | _ => true end.

(** [str(b)] and [str(n)] as produced by an f-string. *)
Definition str_of_bool (b : bool) : string := if b then "True" else "False".
Definition str_of_int (z : Z) : string := NilZero.string_of_int (Z.to_int z).
Definition str_of_nat (n : nat) : string := NilZero.string_of_uint (Nat.to_uint n).

(** Float comparisons. *)
Definition lt (a b : Q) : bool := negb (Qle_bool b a).
Definition gt (a b : Q) : bool := lt b a.

(** Exceptions, with the text [str(e)] returns. *)
Inductive exn : Type :=
| AttributeError (msg : string)
| IndexError (msg : string)
| ValueError (msg : string).

Definition str_of_exn (e : exn) : string :=
  match e with
  | AttributeError m | IndexError m | ValueError m => m
  end.

Definition Exc (A : Type) : Type := exn + A.
Definition ret {A} (a : A) : Exc A := inr a.
Definition raise {A} (e : exn) : Exc A := inl e.
Definition bind {A B} (c : Exc A) (k : A -> Exc B) : Exc B :=
  match c with
  | inl e => inl e
  | inr a => k a
  end.

(** [a[i]] on a numpy array (first axis), for a non-negative [i]. *)
Definition index {A} (a : list A) (i : nat) : Exc A :=
  match nth_error a i with
  | Some x => ret x
  | None =>
      raise (IndexError ("index " +:+ str_of_nat i
                         +:+ " is out of bounds for axis 0 with size "
                         +:+ str_of_nat (length a)))
  end.

(** [max(l)]: the first of the greatest elements; an empty argument
    raises. *)
Definition max (l : list Q) : Exc Q :=
  match l with
  | [] => raise (ValueError "max() arg is an empty sequence")
  | x :: xs => ret (fold_left (fun cur y => if gt y cur then y else cur) xs x)
  end.

(** [np.mean(l)] of a non-empty array: the sum, accumulated from the
    left, over the number of elements.  (On an empty array numpy yields
    nan; the model is only ever applied to non-empty arrays, see
    [_evaluate_text] and [_combine_decision_factors].) *)
Definition sum (l : list Q) : Q := fold_left Qplus l 0.
Definition mean (l : list Q) : Q := sum l / inject_Z (Z.of_nat (length l)).

End Py.

Notation "'let*' x ':=' c 'in' k" := (Py.bind c (fun x => k))
  (at level 10, x name, c at level 100, k at level 200, only parsing).

(** ** Data of the model *)

(** The [result] of a factor and the final decision; the model only ever
    builds these literals. *)
Inductive FactorResult : Type := APPROVE | REVIEW | REJECT.
Inductive Decision : Type := APPROVED | REVIEW_REQUIRED | REJECTED.

#[global] Instance FactorResult_eq_dec : EqDecision FactorResult.
Proof. solve_decision. Defined.
#[global] Instance Decision_eq_dec : EqDecision Decision.
Proof. solve_decision. Defined.

Definition str_of_result (r : FactorResult) : string :=
  match r with APPROVE => "APPROVE" | REVIEW => "REVIEW" | REJECT => "REJECT" end.
Definition str_of_decision (d : Decision) : string :=
  match d with
  | APPROVED => "APPROVED"
  | REVIEW_REQUIRED => "REVIEW_REQUIRED"
  | REJECTED => "REJECTED"
  end.

(** The dictionary [{'result': .., 'confidence': .., 'reason': ..}]. *)
Record Factor : Type := mkFactor {
  result : FactorResult;
  confidence : Q;
  reason : string
}.

(** A dictionary of factors, in insertion order (the order of
    [factors.values()]). *)
Definition Factors : Type := list (string * Factor).

(** The dictionary returned by [_combine_decision_factors]. *)
Record FinalDecision : Type := mkFinal {
  decision : Decision;
  decision_confidence : Q
}.

(** The attributes [initialize] sets on [self]. *)
Record TritonPythonModel : Type := mkModel {
  safety_threshold : Q;
  content_confidence_threshold : Q;
  text_confidence_threshold : Q;
  sensitive_categories : gset Z;
  blocked_keywords : list string
}.

Definition initialize : TritonPythonModel :=
  {| safety_threshold := 0.85;
     content_confidence_threshold := 0.7;
     text_confidence_threshold := 0.6;
     sensitive_categories :=
       {[ 413; 414; 415; 939; 940; 941; 508; 509; 510 ]}%Z;
     blocked_keywords :=
       [ "violence"; "weapon"; "hate"; "discrimination";
         "illegal"; "drugs"; "explicit"; "inappropriate" ] |}.

(** A request: the input tensors by name, [None] when the request carries
    no tensor of that name ([get_input_tensor_by_name] returns [None]).
    Element types and ranks are those of the model configuration. *)
Record Request : Type := mkRequest {
  req_content_scores : option (list (list Q));
  req_content_class : option (list Z);
  req_content_confidence : option (list Q);
  req_safety_scores : option (list (list Q));
  req_is_safe : option (list bool);
  req_risk_level : option (list string);
  req_ocr_text : option (list string);
  req_text_confidence : option (list Q);
  req_detected_language : option (list string)
}.

(** The dictionary built by [_extract_inputs]. *)
Record Inputs : Type := mkInputs {
  in_content_scores : list (list Q);
  in_content_class : list Z;
  in_content_confidence : list Q;
  in_safety_scores : list (list Q);
  in_is_safe : list bool;
  in_risk_level : list string;
  in_ocr_text : list string;
  in_text_confidence : list Q;
  in_detected_language : list string
}.

(** The argument of [json.dumps] in [_make_moderation_decision]. *)
Record Metadata : Type := mkMetadata {
  decision_factors : Factors;
  model_version : string;
  processing_time_ms : Z;
  content_class_id : Z;
  meta_safety_scores : list Q;
  meta_risk_level : string
}.

(** The [result] dictionary of [_make_moderation_decision]. *)
Record Verdict : Type := mkVerdict {
  moderation_decision : Decision;
  confidence_score : Q;
  content_category : string;
  safety_assessment : string;
  extracted_text : list string;
  processing_metadata : Metadata
}.

(** Output tensors and responses. *)
Inductive ndarray : Type :=
| ObjectArray (a : list string)
| Float32Array (a : list Q)
| JsonArray (a : list Metadata).

Definition Tensor : Type := (string * ndarray)%type.

Inductive InferenceResponse : Type :=
| Response (output_tensors : list Tensor)
| ErrorResponse (error : string).

(** ** Operations of [TritonPythonModel] *)

(** [pb_utils.get_input_tensor_by_name(request, name).as_numpy()]: the
    method call on [None] raises. *)
Definition as_numpy {A} (t : option A) : Py.Exc A :=
  match t with
  | Some a => Py.ret a
  | None =>
      Py.raise (Py.AttributeError
                  "'NoneType' object has no attribute 'as_numpy'")
  end.

Definition _extract_inputs (request : Request) : Py.Exc Inputs :=
  let* content_scores := as_numpy (req_content_scores request) in
  let* content_class := as_numpy (req_content_class request) in
  let* content_confidence := as_numpy (req_content_confidence request) in
  let* safety_scores := as_numpy (req_safety_scores request) in
  let* is_safe := as_numpy (req_is_safe request) in
  let* risk_level := as_numpy (req_risk_level request) in
  let* ocr_text := as_numpy (req_ocr_text request) in
  let* text_confidence := as_numpy (req_text_confidence request) in
  let* detected_language := as_numpy (req_detected_language request) in
  Py.ret {| in_content_scores := content_scores;
            in_content_class := content_class;
            in_content_confidence := content_confidence;
            in_safety_scores := safety_scores;
            in_is_safe := is_safe;
            in_risk_level := risk_level;
            in_ocr_text := ocr_text;
            in_text_confidence := text_confidence;
            in_detected_language := detected_language |}.

Definition _evaluate_safety (self : TritonPythonModel)
    (safety_scores : list Q) (is_safe : bool) (risk_level : string)
    : Py.Exc Factor :=
  let* safe_score := Py.index safety_scores 0 in
  let* nsfw_score := Py.index safety_scores 1 in
  if negb is_safe || String.eqb risk_level "HIGH" then
    Py.ret (mkFactor REJECT 0.95 "Safety violation")
  else if String.eqb risk_level "MEDIUM" || Py.gt nsfw_score 0.3 then
    Py.ret (mkFactor REVIEW 0.7 "Moderate risk detected")
  else
    Py.ret (mkFactor APPROVE safe_score "Content appears safe").

Definition _evaluate_content (self : TritonPythonModel)
    (content_class : Z) (confidence : Q) : Factor :=
  if bool_decide (content_class ∈ sensitive_categories self) then
    mkFactor REJECT confidence "Sensitive category"
  else if Py.lt confidence (content_confidence_threshold self) then
    mkFactor REVIEW confidence "Low classification confidence"
  else
    mkFactor APPROVE confidence "Appropriate content category".

(** The [for keyword in self.blocked_keywords] loop of [_evaluate_text]:
    the keyword at which the loop returns, if any. *)
Fixpoint scan_keywords (keywords : list string) (text : string)
    : option string :=
  match keywords with
  | [] => None
  | keyword :: rest =>
      if Py.str_in keyword text then Some keyword
      else scan_keywords rest text
  end.

Definition _evaluate_text (self : TritonPythonModel)
    (text : string) (text_confidences : list Q) : Factor :=
  if negb (Py.truthy (Py.strip text)) then
    mkFactor APPROVE 1.0 "No text detected"
  else
    match scan_keywords (blocked_keywords self) text with
    | Some keyword =>
        mkFactor REJECT 0.9 ("Blocked keyword: " +:+ keyword)
    | None =>
        let avg_confidence :=
          if (0 <? length text_confidences)%nat
          then Py.mean text_confidences else 0.0 in
        if Py.lt avg_confidence (text_confidence_threshold self) then
          mkFactor REVIEW avg_confidence "Low OCR confidence"
        else
          mkFactor APPROVE avg_confidence "Text content acceptable"
    end.

Definition _combine_decision_factors (self : TritonPythonModel)
    (factors : Factors) : Py.Exc FinalDecision :=
  let results := map (fun nf => result (snd nf)) factors in
  let confidences := map (fun nf => confidence (snd nf)) factors in
  if bool_decide (REJECT ∈ results) then
    let* c :=
      Py.max (map confidence
                (filter (fun f => result f = REJECT) (map snd factors))) in
    Py.ret (mkFinal REJECTED c)
  else if bool_decide (REVIEW ∈ results) then
    Py.ret (mkFinal REVIEW_REQUIRED (Py.mean confidences))
  else
    Py.ret (mkFinal APPROVED (Py.mean confidences)).

(** [category_map] of [_get_content_category_name]. *)
Definition category_map : gmap Z string :=
  <[281%Z := "tabby_cat"]> (<[285%Z := "egyptian_cat"]>
  (<[413%Z := "assault_rifle"]> (<[939%Z := "bikini"]> ∅))).

Definition _get_content_category_name (self : TritonPythonModel)
    (class_id : Z) : string :=
  default ("class_" +:+ Py.str_of_int class_id) (category_map !! class_id).

Definition _make_moderation_decision (self : TritonPythonModel)
    (inputs : Inputs) : Py.Exc Verdict :=
  let* content_class := Py.index (in_content_class inputs) 0 in
  let* content_confidence := Py.index (in_content_confidence inputs) 0 in
  let* safety_scores := Py.index (in_safety_scores inputs) 0 in
  let* is_safe := Py.index (in_is_safe inputs) 0 in
  let* risk_level := Py.index (in_risk_level inputs) 0 in
  let ocr_texts := in_ocr_text inputs in
  let combined_text := Py.lower (Py.join " " ocr_texts) in
  let* safety_check := _evaluate_safety self safety_scores is_safe risk_level in
  let content_check := _evaluate_content self content_class content_confidence in
  let text_check :=
    _evaluate_text self combined_text (in_text_confidence inputs) in
  let decision_factors :=
    [ ("safety_check", safety_check);
      ("content_check", content_check);
      ("text_check", text_check) ] in
  let* final_decision := _combine_decision_factors self decision_factors in
  Py.ret
    {| moderation_decision := decision final_decision;
       confidence_score := decision_confidence final_decision;
       content_category := _get_content_category_name self content_class;
       safety_assessment :=
         "Risk: " +:+ risk_level +:+ ", Safe: " +:+ Py.str_of_bool is_safe;
       extracted_text := ocr_texts;
       processing_metadata :=
         {| decision_factors := decision_factors;
            model_version := "v2.1.0";
            processing_time_ms := 0;
            content_class_id := content_class;
            meta_safety_scores := safety_scores;
            meta_risk_level := risk_level |} |}.

Definition _create_response_tensors (self : TritonPythonModel)
    (r : Verdict) : list Tensor :=
  [ ("moderation_decision", ObjectArray [str_of_decision (moderation_decision r)]);
    ("confidence_score", Float32Array [confidence_score r]);
    ("content_category", ObjectArray [content_category r]);
    ("safety_assessment", ObjectArray [safety_assessment r]);
    ("extracted_text", ObjectArray (extracted_text r));
    ("processing_metadata", JsonArray [processing_metadata r]) ].

(** The body of the [try] statement in [execute]. *)
Definition try_request (self : TritonPythonModel) (request : Request)
    : Py.Exc InferenceResponse :=
  let* inputs := _extract_inputs request in
  let* decision_result := _make_moderation_decision self inputs in
  let response_tensors := _create_response_tensors self decision_result in
  Py.ret (Response response_tensors).

(** One iteration of the loop of [execute]: the [try] body, or the
    handler of [except Exception as e]. *)
Definition handle_request (self : TritonPythonModel) (request : Request)
    : InferenceResponse :=
  match try_request self request with
  | inr response => response
  | inl e => ErrorResponse ("Processing error: " +:+ Py.str_of_exn e)
  end.

Definition execute (self : TritonPythonModel) (requests : list Request)
    : list InferenceResponse :=
  fold_left
    (fun responses request => (responses ++ [handle_request self request])%list)
    requests [].

(** The spec's [evaluate]: extraction followed by the decision, the first
    two statements of the [try] body. *)
Definition evaluate (self : TritonPythonModel) (request : Request)
    : Py.Exc Verdict :=
  let* inputs := _extract_inputs request in
  _make_moderation_decision self inputs.

(** ** Vocabulary of the statements *)

Definition unit_interval (x : Q) : Prop := 0 <= x <= 1.

(** Every character of [s] is white space. *)
Fixpoint all_space (s : string) : bool :=
  match s with
  | EmptyString => true
  | String c r => Py.isspace c && all_space r
  end.

(** The three factors under the names [_make_moderation_decision] files
    them. *)
Definition three_factors (sf cf tf : Factor) : Factors :=
  [ ("safety_check", sf); ("content_check", cf); ("text_check", tf) ].

(** The tensor is present and has at least [n] entries. *)
Definition indexable {A} (t : option (list A)) (n : nat) : bool :=
  match t with
  | Some a => (n <=? length a)%nat
  | None => false
  end.

(** The shape a request needs for the decision to go through: every
    tensor present, a first entry in [content_class],
    [content_confidence], [is_safe] and [risk_level], and a first row of
    [safety_scores] with entries 0 and 1. *)
Definition well_shaped (request : Request) : bool :=
  indexable (req_content_scores request) 0
  && indexable (req_content_class request) 1
  && indexable (req_content_confidence request) 1
  && match req_safety_scores request with
     | Some (row :: _) => (2 <=? length row)%nat
     | _ => false
     end
  && indexable (req_is_safe request) 1
  && indexable (req_risk_level request) 1
  && indexable (req_ocr_text request) 0
  && indexable (req_text_confidence request) 0
  && indexable (req_detected_language request) 0.

(** The input contract of the spec (section 3 and section 7): five safety
    scores (safe, nsfw, violence, hate, drugs), a content confidence in
    [0,1] and a risk level among LOW, MEDIUM and HIGH. *)
Definition in_contract (request : Request) : Prop :=
  well_shaped request = true /\
  match req_safety_scores request with
  | Some (row :: _) => length row = 5%nat
  | _ => False
  end /\
  match req_content_confidence request with
  | Some (c :: _) => unit_interval c
  | _ => False
  end /\
  match req_text_confidence request with
  | Some cs => Forall unit_interval cs
  | None => False
  end /\
  match req_risk_level request with
  | Some (r :: _) => r ∈ ["LOW"; "MEDIUM"; "HIGH"]
  | _ => False
  end.

Definition is_error (response : InferenceResponse) : Prop :=
  match response with
  | ErrorResponse _ => True
  | Response _ => False
  end.

(** [k] occurs in [t]: the meaning of Python's [k in t]. *)
Definition substring (k t : string) : Prop := exists a b, t = a +:+ k +:+ b.

(** A request that carries every tensor, with the given content confidence,
    row of safety scores and risk level (none when [None]). *)
Definition bundle (content_confidence : Q) (safety_scores : list Q)
    (risk_level : option string) : Request :=
  mkRequest (Some [[0.1; 0.9]]) (Some [281%Z]) (Some [content_confidence])
            (Some [safety_scores]) (Some [true])
            (option_map (fun r => [r]) risk_level)
            (Some []) (Some []) (Some ["en"]).

(** ** Vocabulary of the further properties *)

(** How severe a factor result and a decision are. *)
Definition severity (r : FactorResult) : nat :=
  match r with APPROVE => 0 | REVIEW => 1 | REJECT => 2 end.
Definition decision_severity (d : Decision) : nat :=
  match d with APPROVED => 0 | REVIEW_REQUIRED => 1 | REJECTED => 2 end.

(** Every tensor is present in the request. *)
Definition all_present (request : Request) : bool :=
  indexable (req_content_scores request) 0
  && indexable (req_content_class request) 0
  && indexable (req_content_confidence request) 0
  && indexable (req_safety_scores request) 0
  && indexable (req_is_safe request) 0
  && indexable (req_risk_level request) 0
  && indexable (req_ocr_text request) 0
  && indexable (req_text_confidence request) 0
  && indexable (req_detected_language request) 0.

(** Two outcomes of the decision that agree on what is decided: the same
    decision, confidence and factors, or the same exception. *)
Definition same_decision (a b : Py.Exc Verdict) : Prop :=
  match a, b with
  | inr v, inr v' =>
      moderation_decision v = moderation_decision v' /\
      confidence_score v = confidence_score v' /\
      decision_factors (processing_metadata v)
      = decision_factors (processing_metadata v')
  | inl e, inl e' => e = e'
  | _, _ => False
  end.

(** The second outcome is at most as severe as the first, or both are the
    same exception. *)
Definition no_more_severe (a b : Py.Exc Verdict) : Prop :=
  match a, b with
  | inr v, inr v' =>
      (decision_severity (moderation_decision v')
       <= decision_severity (moderation_decision v))%nat
  | inl e, inl e' => e = e'
  | _, _ => False
  end.

(** No character of [s] is white space. *)
Fixpoint no_space (s : string) : bool :=
  match s with
  | EmptyString => true
  | String c r => negb (Py.isspace c) && no_space r
  end.

(** ** Facts about the Python built-ins *)

Module PyFacts.

Lemma lt_true (a b : Q) : Py.lt a b = true <-> a < b.
Proof.
  unfold Py.lt. rewrite negb_true_iff.
  destruct (Qle_bool b a) eqn:E.
  - apply Qle_bool_iff in E. split; [discriminate | intros H; exfalso; lra].
  - split; [intros _ | reflexivity].
    apply Qnot_le_lt. intros H. apply Qle_bool_iff in H. congruence.
Qed.

Lemma lt_false (a b : Q) : Py.lt a b = false <-> b <= a.
Proof.
  destruct (Py.lt a b) eqn:E.
  - apply lt_true in E. split; [discriminate | intros H; exfalso; lra].
  - split; [intros _ | reflexivity].
    apply Qnot_lt_le. intros H. apply lt_true in H. congruence.
Qed.

(** The running maximum of the [max] loop. *)
Lemma fold_max_spec (xs : list Q) (x : Q) :
  let m := fold_left (fun cur y => if Py.gt y cur then y else cur) xs x in
  (m = x \/ m ∈ xs) /\ x <= m /\ Forall (fun y => y <= m) xs.
Proof.
  revert x. induction xs as [|y ys IH]; intros x; simpl.
  - split; [now left | split; [lra | constructor]].
  - destruct (Py.gt y x) eqn:E; unfold Py.gt in E.
    + apply lt_true in E.
      destruct (IH y) as (Hin & Hle & Hall).
      split; [|split].
      * right. destruct Hin as [-> | Hin]; [left | now right].
      * lra.
      * constructor; assumption.
    + apply lt_false in E.
      destruct (IH x) as (Hin & Hle & Hall).
      split; [|split].
      * destruct Hin as [-> | Hin]; [now left | right; now right].
      * assumption.
      * constructor; [lra | assumption].
Qed.

Lemma max_spec (l : list Q) (m : Q) :
  Py.max l = inr m -> m ∈ l /\ Forall (fun y => y <= m) l.
Proof.
  destruct l as [|x xs]; simpl; [discriminate |].
  intros [= <-].
  destruct (fold_max_spec xs x) as (Hin & Hle & Hall).
  split.
  - destruct Hin as [-> | Hin]; [left | now right].
  - constructor; assumption.
Qed.

Lemma max_nonempty (l : list Q) : l <> [] -> exists m, Py.max l = inr m.
Proof. destruct l; [congruence | intros _; eexists; reflexivity]. Qed.


Lemma inject_succ (n : nat) :
  inject_Z (Z.of_nat (S n)) == inject_Z (Z.of_nat n) + 1.
Proof. rewrite Nat2Z.inj_succ. unfold Z.succ. rewrite inject_Z_plus. reflexivity. Qed.

Lemma fold_sum_bounds (l : list Q) (a : Q) :
  Forall unit_interval l ->
  a <= fold_left Qplus l a <= a + inject_Z (Z.of_nat (length l)).
Proof.
  intros H. revert a. induction H as [|x l [Hx0 Hx1] _ IH]; intros a.
  - simpl. change (inject_Z (Z.of_nat 0)) with 0. lra.
  - cbn [fold_left length]. specialize (IH (a + x)).
    rewrite inject_succ. lra.
Qed.

Lemma mean_bounds (l : list Q) :
  l <> [] -> Forall unit_interval l -> unit_interval (Py.mean l).
Proof.
  intros Hne Hall. unfold Py.mean, Py.sum.
  pose proof (fold_sum_bounds l 0 Hall) as [Hlo Hhi].
  assert (Hpos : 0 < inject_Z (Z.of_nat (length l))).
  { destruct l; [congruence |]. cbn [length]. rewrite inject_succ.
    assert (0 <= inject_Z (Z.of_nat (length l))).
    { change 0 with (inject_Z 0). rewrite <- Zle_Qle. lia. }
    lra. }
  split.
  - apply Qle_shift_div_l; [assumption | lra].
  - apply Qle_shift_div_r; [assumption | lra].
Qed.

Lemma lstrip_all_space (s : string) : all_space (Py.lstrip s) = all_space s.
Proof.
  induction s as [|c r IH]; simpl; [reflexivity |].
  destruct (Py.isspace c) eqn:E; simpl; [assumption | now rewrite E].
Qed.

Lemma rstrip_empty (s : string) : Py.rstrip s = "" <-> all_space s = true.
Proof.
  induction s as [|c r IH]; simpl; [tauto |].
  destruct (Py.rstrip r) eqn:Er.
  - destruct (Py.isspace c); simpl.
    + split; [intros _; now apply IH | reflexivity].
    + split; discriminate.
  - split; [discriminate |].
    intros H. apply andb_true_iff in H as [_ H].
    apply IH in H. discriminate.
Qed.

Lemma strip_empty (s : string) : Py.strip s = "" <-> all_space s = true.
Proof. unfold Py.strip. rewrite rstrip_empty, lstrip_all_space. tauto. Qed.

Lemma isspace_lower (c : ascii) : Py.isspace (Py.lower_char c) = Py.isspace c.
Proof. destruct c as [[] [] [] [] [] [] [] []]; reflexivity. Qed.

Lemma all_space_lower (s : string) : all_space (Py.lower s) = all_space s.
Proof.
  induction s as [|c r IH]; simpl; [reflexivity |].
  now rewrite isspace_lower, IH.
Qed.

Lemma prefix_spec (k t : string) :
  String.prefix k t = true <-> exists b, t = k +:+ b.
Proof.
  revert t. induction k as [|c k IH]; intros t; simpl.
  - split; [intros _; now exists t | intros _; now destruct t].
  - destruct t as [|d t].
    + simpl. split; [discriminate | intros [b Hb]; discriminate].
    + simpl. destruct (ascii_dec c d) as [-> | Hne].
      * rewrite IH. split; intros [b Hb]; exists b; [now rewrite Hb | now injection Hb].
      * split; [discriminate | intros [b Hb]; injection Hb; congruence].
Qed.

(** [k in t] holds exactly when [t] splits around an occurrence of [k]. *)
Lemma str_in_spec (k t : string) :
  Py.str_in k t = true <-> exists a b, t = a +:+ k +:+ b.
Proof.
  induction t as [|d t IH].
  - cbn [Py.str_in]. rewrite orb_false_r, prefix_spec. split.
    + intros [b Hb]. now exists "", b.
    + intros (a & b & H). destruct a; [now exists b | discriminate].
  - cbn [Py.str_in]. rewrite orb_true_iff, prefix_spec, IH. split.
    + intros [[b Hb] | (a & b & H)].
      * now exists "", b.
      * exists (String d a), b. simpl. now rewrite H.
    + intros (a & b & H). destruct a as [|e a].
      * left. now exists b.
      * right. exists a, b. simpl in H. now injection H.
Qed.

(** The keyword loop stops at the first keyword that occurs in the text. *)
Lemma scan_keywords_Some (ks : list string) (text k : string) :
  scan_keywords ks text = Some k <->
  exists pre post, ks = (pre ++ k :: post)%list /\
    Py.str_in k text = true /\
    Forall (fun k' => Py.str_in k' text = false) pre.
Proof.
  induction ks as [|k0 ks IH]; simpl.
  - split; [discriminate |]. intros (pre & post & H & _). destruct pre; discriminate.
  - destruct (Py.str_in k0 text) eqn:E.
    + split.
      * intros [= <-]. exists [], ks. auto.
      * intros (pre & post & H & Hk & Hpre). destruct pre as [|p pre].
        -- simpl in H. congruence.
        -- simpl in H. injection H as -> ->. inversion Hpre; congruence.
    + rewrite IH. split.
      * intros (pre & post & -> & Hk & Hpre). exists (k0 :: pre), post. auto.
      * intros (pre & post & H & Hk & Hpre). destruct pre as [|p pre].
        -- simpl in H. injection H as -> ->. congruence.
        -- simpl in H. injection H as -> ->. inversion Hpre; subst. eauto.
Qed.

Lemma scan_keywords_None (ks : list string) (text : string) :
  scan_keywords ks text = None <->
  Forall (fun k => Py.str_in k text = false) ks.
Proof.
  induction ks as [|k0 ks IH]; simpl.
  - split; [constructor | reflexivity].
  - destruct (Py.str_in k0 text) eqn:E.
    + split; [discriminate | intros H; inversion H; congruence].
    + rewrite IH. split; [now constructor | intros H; now inversion H].
Qed.
End PyFacts.

(** ** Inversion and totality of the operations *)

Lemma bind_inr {A B} (c : Py.Exc A) (k : A -> Py.Exc B) (b : B) :
  Py.bind c k = inr b <-> exists a, c = inr a /\ k a = inr b.
Proof.
  destruct c as [e | a]; simpl.
  - split; [discriminate | intros (a & H & _); discriminate].
  - split; [eauto | intros (a' & [= <-] & H); exact H].
Qed.

Lemma index_inr {A} (a : list A) (i : nat) (x : A) :
  Py.index a i = inr x <-> nth_error a i = Some x.
Proof.
  unfold Py.index. destruct (nth_error a i); simpl.
  - split; intros [= ->]; reflexivity.
  - split; discriminate.
Qed.

Lemma evaluate_safety_inr self row safe risk f :
  _evaluate_safety self row safe risk = inr f <->
  exists safe_score nsfw_score,
    nth_error row 0 = Some safe_score /\ nth_error row 1 = Some nsfw_score /\
    f = if negb safe || String.eqb risk "HIGH"
        then mkFactor REJECT 0.95 "Safety violation"
        else if String.eqb risk "MEDIUM" || Py.gt nsfw_score 0.3
             then mkFactor REVIEW 0.7 "Moderate risk detected"
             else mkFactor APPROVE safe_score "Content appears safe".
Proof.
  unfold _evaluate_safety. rewrite bind_inr. split.
  - intros (s & Hs & H). apply bind_inr in H as (n & Hn & H).
    apply index_inr in Hs, Hn. exists s, n. repeat split; try assumption.
    destruct (negb safe || String.eqb risk "HIGH");
      [| destruct (String.eqb risk "MEDIUM" || Py.gt n 0.3)];
      injection H as <-; reflexivity.
  - intros (s & n & Hs & Hn & ->). exists s. split; [now apply index_inr |].
    apply bind_inr. exists n. split; [now apply index_inr |].
    destruct (negb safe || String.eqb risk "HIGH");
      [| destruct (String.eqb risk "MEDIUM" || Py.gt n 0.3)]; reflexivity.
Qed.

(** What [_combine_decision_factors] returns on the three factors. *)
Lemma combine_three self sf cf tf :
  exists c,
    _combine_decision_factors self (three_factors sf cf tf)
    = inr (mkFinal
             (if bool_decide (REJECT ∈ [result sf; result cf; result tf])
              then REJECTED
              else if bool_decide (REVIEW ∈ [result sf; result cf; result tf])
                   then REVIEW_REQUIRED else APPROVED) c) /\
    if bool_decide (REJECT ∈ [result sf; result cf; result tf])
    then Py.max (map confidence
                   (filter (fun f => result f = REJECT) [sf; cf; tf])) = inr c
    else c = Py.mean [confidence sf; confidence cf; confidence tf].
Proof.
  unfold _combine_decision_factors, three_factors.
  destruct sf as [rs cs ms], cf as [rc cc mc], tf as [rt ct mt].
  cbn [map snd fst result confidence].
  destruct rs, rc, rt; eexists; (split; [reflexivity | reflexivity]).
Qed.

(** Every verdict of [_make_moderation_decision] comes from indexing the
    five tensors, evaluating the three factors and combining them. *)
Lemma make_decision_inr self inputs v :
  _make_moderation_decision self inputs = inr v <->
  exists content_class content_confidence safety_scores is_safe risk_level
         safety_check final_decision,
    nth_error (in_content_class inputs) 0 = Some content_class /\
    nth_error (in_content_confidence inputs) 0 = Some content_confidence /\
    nth_error (in_safety_scores inputs) 0 = Some safety_scores /\
    nth_error (in_is_safe inputs) 0 = Some is_safe /\
    nth_error (in_risk_level inputs) 0 = Some risk_level /\
    _evaluate_safety self safety_scores is_safe risk_level = inr safety_check /\
    let factors :=
      three_factors safety_check
        (_evaluate_content self content_class content_confidence)
        (_evaluate_text self (Py.lower (Py.join " " (in_ocr_text inputs)))
           (in_text_confidence inputs)) in
    _combine_decision_factors self factors = inr final_decision /\
    v = {| moderation_decision := decision final_decision;
           confidence_score := decision_confidence final_decision;
           content_category := _get_content_category_name self content_class;
           safety_assessment :=
             "Risk: " +:+ risk_level +:+ ", Safe: " +:+ Py.str_of_bool is_safe;
           extracted_text := in_ocr_text inputs;
           processing_metadata :=
             {| decision_factors := factors;
                model_version := "v2.1.0";
                processing_time_ms := 0;
                content_class_id := content_class;
                meta_safety_scores := safety_scores;
                meta_risk_level := risk_level |} |}.
Proof.
  unfold _make_moderation_decision. split.
  - intros H.
    apply bind_inr in H as (cc & Hcc & H).
    apply bind_inr in H as (conf & Hconf & H).
    apply bind_inr in H as (row & Hrow & H).
    apply bind_inr in H as (safe & Hsafe & H).
    apply bind_inr in H as (risk & Hrisk & H).
    apply bind_inr in H as (sf & Hsf & H).
    apply bind_inr in H as (fd & Hfd & H).
    apply index_inr in Hcc, Hconf, Hrow, Hsafe, Hrisk.
    injection H as <-.
    exists cc, conf, row, safe, risk, sf, fd. repeat split; assumption.
  - intros (cc & conf & row & safe & risk & sf & fd
            & Hcc & Hconf & Hrow & Hsafe & Hrisk & Hsf & Hfd & ->).
    apply index_inr in Hcc, Hconf, Hrow, Hsafe, Hrisk.
    rewrite Hcc, Hconf, Hrow, Hsafe, Hrisk. cbn [Py.bind].
    rewrite Hsf. cbn [Py.bind].
    unfold three_factors in Hfd. rewrite Hfd. reflexivity.
Qed.

(** ** The scenarios of the spec, by evaluation *)

Example strip_lower_in :
  Py.strip "  a b  " = "a b" /\ Py.lower "ABC xyZ" = "abc xyz" /\
  Py.join " " ["No"; "Entry"] = "No Entry" /\
  Py.str_in "ab" "xxabx" = true /\ Py.str_in "ab" "xxa" = false.
Proof. repeat split. Qed.

Example scenario_unsafe_high :
  match _make_moderation_decision initialize
          (mkInputs [] [281%Z] [0.8] [[0.1; 0.9; 0; 0; 0]] [false] ["HIGH"]
                    [] [] []) with
  | inr v => moderation_decision v = REJECTED /\ confidence_score v == 0.95
  | inl _ => False
  end.
Proof. cbn. split; reflexivity. Qed.

Example scenario_all_approve :
  match _make_moderation_decision initialize
          (mkInputs [] [281%Z] [0.8] [[0.9; 0.05]] [true] ["LOW"]
                    [] [] []) with
  | inr v => moderation_decision v = APPROVED /\ confidence_score v == 0.9
  | inl _ => False
  end.
Proof. cbn. split; reflexivity. Qed.

Example scenario_sensitive_class :
  match _make_moderation_decision initialize
          (mkInputs [] [413%Z] [0.9] [[0.9; 0.05]] [true] ["LOW"]
                    [] [] []) with
  | inr v =>
      moderation_decision v = REJECTED /\ confidence_score v == 0.9 /\
      content_category v = "assault_rifle"
  | inl _ => False
  end.
Proof. cbn. repeat split. Qed.

Example scenario_blocked_text :
  _evaluate_text initialize
    (Py.lower (Py.join " " ["this contains violence"])) [0.9]
  = mkFactor REJECT 0.9 "Blocked keyword: violence".
Proof. reflexivity. Qed.

Example scenario_list_order :
  _evaluate_text initialize "illegal drugs and a weapon" [0.9]
  = mkFactor REJECT 0.9 "Blocked keyword: weapon".
Proof. reflexivity. Qed.

Example scenario_low_confidence :
  match _make_moderation_decision initialize
          (mkInputs [] [281%Z] [0.5] [[0.9; 0.05]] [true] ["LOW"]
                    [] [] []) with
  | inr v =>
      moderation_decision v = REVIEW_REQUIRED /\
      confidence_score v == (0.9 + 0.5 + 1.0) / 3
  | inl _ => False
  end.
Proof. cbn. split; reflexivity. Qed.

Example scenario_unknown_class :
  _get_content_category_name initialize 7 = "class_7" /\
  _get_content_category_name initialize (-3) = "class_-3".
Proof. split; reflexivity. Qed.

(** ** Fusion of the three factors *)

Lemma combine_reject self sf cf tf :
  REJECT ∈ [result sf; result cf; result tf] ->
  exists c,
    _combine_decision_factors self (three_factors sf cf tf)
    = inr (mkFinal REJECTED c) /\
    (exists f, f ∈ [sf; cf; tf] /\ result f = REJECT /\ c = confidence f) /\
    (forall f, f ∈ [sf; cf; tf] -> result f = REJECT -> confidence f <= c).
Proof.
  intros Hrej. destruct (combine_three self sf cf tf) as (c & Hc & Hmax).
  rewrite (bool_decide_eq_true_2 _ Hrej) in Hc, Hmax.
  exists c. split; [exact Hc |].
  apply PyFacts.max_spec in Hmax as [Hin Hall].
  split.
  - apply list_elem_of_In, in_map_iff in Hin as (f & <- & Hf).
    apply list_elem_of_In, list_elem_of_filter in Hf as [Hres Hf].
    exists f. auto.
  - intros f Hf Hres.
    rewrite Forall_forall in Hall. apply Hall.
    apply list_elem_of_In, in_map, list_elem_of_In, list_elem_of_filter. auto.
Qed.

Lemma combine_no_reject self sf cf tf :
  REJECT ∉ [result sf; result cf; result tf] ->
  _combine_decision_factors self (three_factors sf cf tf)
  = inr (mkFinal
           (if bool_decide (REVIEW ∈ [result sf; result cf; result tf])
            then REVIEW_REQUIRED else APPROVED)
           (Py.mean [confidence sf; confidence cf; confidence tf])).
Proof.
  intros Hrej. destruct (combine_three self sf cf tf) as (c & Hc & Hmean).
  rewrite (bool_decide_eq_false_2 _ Hrej) in Hc, Hmean.
  now subst c.
Qed.








(** ** The text factor *)

Lemma evaluate_text_blank self text tc :
  Py.strip text = "" ->
  _evaluate_text self text tc = mkFactor APPROVE 1.0 "No text detected".
Proof. intros H. unfold _evaluate_text. now rewrite H. Qed.

Lemma join_nil_or_blank (texts : list string) :
  texts = [] \/ Py.strip (Py.join " " texts) = "" ->
  Py.strip (Py.lower (Py.join " " texts)) = "".
Proof.
  intros [-> | H]; [reflexivity |].
  apply PyFacts.strip_empty. rewrite PyFacts.all_space_lower.
  now apply PyFacts.strip_empty.
Qed.

Lemma verdict_text_check self inputs v :
  _make_moderation_decision self inputs = inr v ->
  exists sf cf,
    decision_factors (processing_metadata v)
    = three_factors sf cf
        (_evaluate_text self (Py.lower (Py.join " " (in_ocr_text inputs)))
           (in_text_confidence inputs)).
Proof.
  intros H. apply make_decision_inr in H
    as (cc & conf & row & safe & risk & sf & fd & _ & _ & _ & _ & _ & _ & _ & ->).
  cbn. eauto.
Qed.

(** C5: when the OCR texts are empty, or join to a blank string, the text
    factor is APPROVE with confidence 1.0 and reason "No text detected",
    for every array of text confidences, and this is the text_check every
    verdict on such a bundle files. *)
Theorem empty_text_short_circuit self inputs :
  in_ocr_text inputs = [] \/ Py.strip (Py.join " " (in_ocr_text inputs)) = "" ->
  let text_check := mkFactor APPROVE 1.0 "No text detected" in
  (forall text_confidences,
     _evaluate_text self (Py.lower (Py.join " " (in_ocr_text inputs)))
       text_confidences = text_check) /\
  (forall v, _make_moderation_decision self inputs = inr v ->
     exists sf cf,
       decision_factors (processing_metadata v) = three_factors sf cf text_check).
Proof.
  intros H text_check. apply join_nil_or_blank in H.
  split.
  - intros tc. now apply evaluate_text_blank.
  - intros v Hv. destruct (verdict_text_check _ _ _ Hv) as (sf & cf & Hfs).
    exists sf, cf. rewrite Hfs. f_equal. f_equal. f_equal.
    now apply evaluate_text_blank.
Qed.

Lemma empty_text_short_circuit_witness :
  _evaluate_text initialize (Py.lower (Py.join " " [" "; "  "])) [0.1; 0.2]
  = mkFactor APPROVE 1.0 "No text detected".
Proof.
  refine (proj1 (empty_text_short_circuit initialize
                   (mkInputs [] [281%Z] [0.8] [[0.9; 0.05]] [true] ["LOW"]
                             [" "; "  "] [0.1; 0.2] []) _) [0.1; 0.2]).
  right. vm_compute. reflexivity.
Defined.

(** C6: on a non-blank text in which some blocked keyword occurs, the text
    factor is REJECT with confidence 0.9 and its reason names the first
    keyword, in the order of the configured list, that occurs in the
    text: no keyword before it in the list occurs. *)
Theorem first_blocked_keyword self text :
  Py.strip text <> "" ->
  (exists k, k ∈ blocked_keywords self /\ substring k text) ->
  exists pre keyword post,
    blocked_keywords self = (pre ++ keyword :: post)%list /\
    substring keyword text /\
    Forall (fun k => ~ substring k text) pre /\
    let text_check :=
      mkFactor REJECT 0.9 ("Blocked keyword: " +:+ keyword) in
    (forall text_confidences,
       _evaluate_text self text text_confidences = text_check) /\
    (forall inputs v,
       text = Py.lower (Py.join " " (in_ocr_text inputs)) ->
       _make_moderation_decision self inputs = inr v ->
       exists sf cf,
         decision_factors (processing_metadata v)
         = three_factors sf cf text_check).
Proof.
  intros Hblank (k & Hk & Hsub).
  destruct (scan_keywords (blocked_keywords self) text) as [kw |] eqn:Hscan.
  - apply PyFacts.scan_keywords_Some in Hscan as Hsplit.
    destruct Hsplit as (pre & post & Hks & Hkw & Hpre).
    assert (Heval : forall tc,
      _evaluate_text self text tc
      = mkFactor REJECT 0.9 ("Blocked keyword: " +:+ kw)).
    { intros tc. unfold _evaluate_text. rewrite Hscan.
      destruct (Py.strip text); [congruence | reflexivity]. }
    exists pre, kw, post. split; [exact Hks |].
    split; [now apply PyFacts.str_in_spec |].
    split.
    { eapply Forall_impl; [exact Hpre |]. cbn. intros k' Hk' Hs.
      apply PyFacts.str_in_spec in Hs. congruence. }
    split; [exact Heval |].
    intros inputs v -> Hv.
    destruct (verdict_text_check _ _ _ Hv) as (sf & cf & Hfs).
    exists sf, cf. now rewrite Hfs, Heval.
  - apply PyFacts.scan_keywords_None in Hscan.
    rewrite Forall_forall in Hscan. specialize (Hscan k Hk).
    apply PyFacts.str_in_spec in Hsub. congruence.
Qed.

Lemma first_blocked_keyword_witness :
  result (_evaluate_text initialize "illegal drugs and a weapon" [0.9])
  = REJECT.
Proof.
  destruct (first_blocked_keyword initialize "illegal drugs and a weapon"
              ltac:(vm_compute; discriminate)
              ltac:(exists "drugs"; split;
                    [ vm_compute; repeat constructor
                    | exists "illegal ", " and a weapon"; reflexivity ]))
    as (pre & kw & post & Hks & Hsub & Hpre & Heval & _).
  rewrite (Heval [0.9]). reflexivity.
Defined.

(** ** Bounds on the confidence *)

Lemma evaluate_content_confidence self cc conf :
  confidence (_evaluate_content self cc conf) = conf.
Proof.
  unfold _evaluate_content.
  destruct (bool_decide _); [reflexivity |]. now destruct (Py.lt _ _).
Qed.

Lemma evaluate_text_bounds self text tc :
  Forall unit_interval tc ->
  unit_interval (confidence (_evaluate_text self text tc)).
Proof.
  intros Hall. unfold _evaluate_text, unit_interval.
  destruct (negb _); [cbn; lra |].
  destruct (scan_keywords _ _); [cbn; lra |].
  assert (H : unit_interval
                (if (0 <? length tc)%nat then Py.mean tc else 0.0)).
  { destruct tc as [|c tc]; [cbn; unfold unit_interval; lra |].
    cbn [length Nat.ltb Nat.leb]. now apply PyFacts.mean_bounds. }
  now destruct (Py.lt _ _).
Qed.

Lemma evaluate_safety_bounds self row safe risk f :
  _evaluate_safety self row safe risk = inr f ->
  (forall s, nth_error row 0 = Some s -> unit_interval s) ->
  unit_interval (confidence f).
Proof.
  intros H Hrow. apply evaluate_safety_inr in H as (s & n & Hs & _ & ->).
  specialize (Hrow s Hs). unfold unit_interval in *.
  destruct (negb safe || _); [cbn; lra |].
  destruct (_ || _); cbn; [lra | exact Hrow].
Qed.

(** C7 as stated fails: a safe score of 7 on an otherwise approving bundle
    gives an APPROVED verdict of confidence (7 + 1 + 1) / 3 = 3. *)
Lemma confidence_above_one :
  exists v,
    _make_moderation_decision initialize
      (mkInputs [] [281%Z] [1] [[7; 0; 0; 0; 0]] [true] ["LOW"] [] [] [])
    = inr v /\
    moderation_decision v = APPROVED /\
    confidence_score v == 3 /\
    ~ unit_interval (confidence_score v).
Proof.
  eexists. split; [vm_compute; reflexivity |].
  split; [reflexivity |]. cbn [confidence_score].
  split; [reflexivity |]. unfold unit_interval. intros [_ H]. revert H.
  apply Qlt_not_le. reflexivity.
Qed.

(** C7, amended: when the safe score (entry 0 of the first safety_scores
    row), the content confidence and every text confidence lie in [0,1],
    the confidence of the verdict lies in [0,1]. *)
Theorem confidence_bounds self inputs v :
  _make_moderation_decision self inputs = inr v ->
  (forall row s, nth_error (in_safety_scores inputs) 0 = Some row ->
                 nth_error row 0 = Some s -> unit_interval s) ->
  (forall c, nth_error (in_content_confidence inputs) 0 = Some c ->
             unit_interval c) ->
  Forall unit_interval (in_text_confidence inputs) ->
  unit_interval (confidence_score v).
Proof.
  intros Hv Hsafe Hconf Htext.
  apply make_decision_inr in Hv
    as (cc & conf & row & safe & risk & sf & fd
        & _ & Hc & Hrow & _ & _ & Hsf & Hfd & ->).
  cbn [confidence_score].
  set (cf := _evaluate_content self cc conf) in *.
  set (tf := _evaluate_text self _ _) in *.
  assert (Hsfb : unit_interval (confidence sf)).
  { eapply evaluate_safety_bounds; [exact Hsf |]. intros s. now apply Hsafe. }
  assert (Hcfb : unit_interval (confidence cf)).
  { unfold cf. rewrite evaluate_content_confidence. now apply Hconf. }
  assert (Htfb : unit_interval (confidence tf)).
  { now apply evaluate_text_bounds. }
  destruct (decide (REJECT ∈ [result sf; result cf; result tf])) as [Hrej | Hrej].
  - destruct (combine_reject self sf cf tf Hrej) as (c & Hcomb & (f & Hf & _ & ->) & _).
    rewrite Hcomb in Hfd. injection Hfd as <-. cbn.
    rewrite !elem_of_cons, elem_of_nil in Hf.
    destruct Hf as [-> | [-> | [-> | []]]]; assumption.
  - rewrite (combine_no_reject _ _ _ _ Hrej) in Hfd. injection Hfd as <-. cbn.
    apply PyFacts.mean_bounds; [discriminate |].
    repeat (apply List.Forall_cons; [assumption |]). apply List.Forall_nil.
Qed.

Lemma confidence_bounds_witness :
  unit_interval (2700 # 3000).
Proof.
  refine (confidence_bounds initialize
            (mkInputs [] [281%Z] [0.8] [[0.9; 0.05; 0; 0; 0]] [true] ["LOW"]
                      [] [] [])
            (mkVerdict APPROVED (2700 # 3000) _ _ _ _) _ _ _ _).
  - vm_compute. reflexivity.
  - intros row s [= <-] [= <-]. unfold unit_interval. lra.
  - intros c [= <-]. unfold unit_interval. lra.
  - constructor.
Defined.

(** ** Inputs and settings the decision does not read *)

(** C8: two models that differ only in safety_threshold return the same
    result on every input: for the decision, for the evaluation of a
    request and for the responses of a batch.  The safety factor branches
    on is_safe, on the risk level and on the nsfw score against 0.3
    only. *)
Theorem safety_threshold_unused
    (t1 t2 cct tct : Q) (sens : gset Z) (kws : list string) :
  (forall inputs,
     _make_moderation_decision (mkModel t1 cct tct sens kws) inputs
     = _make_moderation_decision (mkModel t2 cct tct sens kws) inputs) /\
  (forall request,
     evaluate (mkModel t1 cct tct sens kws) request
     = evaluate (mkModel t2 cct tct sens kws) request) /\
  (forall requests,
     execute (mkModel t1 cct tct sens kws) requests
     = execute (mkModel t2 cct tct sens kws) requests) /\
  (forall self safe_score nsfw_score others is_safe risk_level,
     exists f,
       _evaluate_safety self (safe_score :: nsfw_score :: others)
         is_safe risk_level = inr f /\
       result f =
         if negb is_safe || String.eqb risk_level "HIGH" then REJECT
         else if String.eqb risk_level "MEDIUM" || Py.gt nsfw_score 0.3
              then REVIEW else APPROVE).
Proof.
  split; [| split; [| split]]; try reflexivity.
  intros self s n others safe risk. unfold _evaluate_safety. cbn.
  destruct (negb safe || String.eqb risk "HIGH");
    [| destruct (String.eqb risk "MEDIUM" || Py.gt n 0.3)];
    eexists; split; reflexivity.
Qed.

(** C9 as stated fails: two requests that agree on every input but
    content_scores, one of them without that tensor, get different
    responses, since extraction calls as_numpy on all nine tensors. *)
Lemma absent_unused_tensor_changes_response :
  handle_request initialize
    (mkRequest None (Some [281%Z]) (Some [0.8]) (Some [[0.9; 0.05]])
               (Some [true]) (Some ["LOW"]) (Some []) (Some []) (Some ["en"]))
  = ErrorResponse
      "Processing error: 'NoneType' object has no attribute 'as_numpy'" /\
  (exists tensors,
     handle_request initialize
       (mkRequest (Some [[0.1; 0.9]]) (Some [281%Z]) (Some [0.8])
                  (Some [[0.9; 0.05]]) (Some [true]) (Some ["LOW"])
                  (Some []) (Some []) (Some ["en"]))
     = Response tensors) /\
  handle_request initialize
    (mkRequest None (Some [281%Z]) (Some [0.8]) (Some [[0.9; 0.05]])
               (Some [true]) (Some ["LOW"]) (Some []) (Some []) (Some ["en"]))
  <> handle_request initialize
       (mkRequest (Some [[0.1; 0.9]]) (Some [281%Z]) (Some [0.8])
                  (Some [[0.9; 0.05]]) (Some [true]) (Some ["LOW"])
                  (Some []) (Some []) (Some ["en"])).
Proof.
  split; [reflexivity |]. split; [eexists; reflexivity |].
  vm_compute. discriminate.
Qed.

(** C9, amended: the values of the content_scores and detected_language
    tensors do not influence the result: inputs that agree on the seven
    other tensors give the same outcome of the decision, and requests
    that both carry these two tensors and agree on the seven others get
    the same response. *)
Theorem unused_inputs_do_not_interfere self
    (content_scores1 content_scores2 : list (list Q))
    (detected_language1 detected_language2 : list string) :
  (forall cc conf ss safe risk ocr tc,
     _make_moderation_decision self
       (mkInputs content_scores1 cc conf ss safe risk ocr tc detected_language1)
     = _make_moderation_decision self
         (mkInputs content_scores2 cc conf ss safe risk ocr tc detected_language2)) /\
  (forall cc conf ss safe risk ocr tc,
     handle_request self
       (mkRequest (Some content_scores1) cc conf ss safe risk ocr tc
                  (Some detected_language1))
     = handle_request self
       (mkRequest (Some content_scores2) cc conf ss safe risk ocr tc
                  (Some detected_language2))).
Proof.
  split; [reflexivity |].
  intros [cc|] [conf|] [ss|] [safe|] [risk|] [ocr|] [tc|]; reflexivity.
Qed.

(** ** Batches and failures *)

Lemma execute_loop self (requests : list Request) (responses : list InferenceResponse) :
  fold_left
    (fun responses request => (responses ++ [handle_request self request])%list)
    requests responses
  = (responses ++ (handle_request self <$> requests))%list.
Proof.
  revert responses. induction requests as [|r rs IH]; intros responses; cbn.
  - now rewrite app_nil_r.
  - rewrite IH, <- app_assoc. reflexivity.
Qed.

Lemma execute_fmap self (requests : list Request) :
  execute self requests = handle_request self <$> requests.
Proof. unfold execute. now rewrite execute_loop. Qed.

Lemma try_request_evaluate self request :
  try_request self request
  = Py.bind (evaluate self request)
      (fun v => Py.ret (Response (_create_response_tensors self v))).
Proof.
  unfold try_request, evaluate.
  destruct (_extract_inputs request) as [e | inputs]; [reflexivity |]. cbn.
  destruct (_make_moderation_decision self inputs); reflexivity.
Qed.

Lemma handle_request_error self request e :
  evaluate self request = inl e ->
  handle_request self request
  = ErrorResponse ("Processing error: " +:+ Py.str_of_exn e).
Proof.
  intros H. unfold handle_request. now rewrite try_request_evaluate, H.
Qed.

Lemma handle_request_verdict self request v :
  evaluate self request = inr v ->
  handle_request self request = Response (_create_response_tensors self v).
Proof.
  intros H. unfold handle_request. now rewrite try_request_evaluate, H.
Qed.

(** C10: the responses of a batch are as many as the requests, the i-th
    response is the one of the i-th request, a request whose evaluation
    raises gets the error response at its own position, and replacing one
    request changes the response at that position only. *)
Theorem execute_positional self (requests : list Request) :
  length (execute self requests) = length requests /\
  (forall i : nat,
     execute self requests !! i = handle_request self <$> requests !! i) /\
  (forall (i : nat) request e,
     requests !! i = Some request ->
     evaluate self request = inl e ->
     execute self requests !! i
     = Some (ErrorResponse ("Processing error: " +:+ Py.str_of_exn e))) /\
  (forall (i : nat) request',
     execute self (<[i := request']> requests)
     = <[i := handle_request self request']> (execute self requests)).
Proof.
  rewrite execute_fmap. repeat split.
  - apply length_fmap.
  - intros i. apply list_lookup_fmap.
  - intros i request e Hi He.
    rewrite list_lookup_fmap, Hi. cbn. f_equal. now apply handle_request_error.
  - intros i request'. rewrite execute_fmap. apply list_fmap_insert.
Qed.

Lemma extract_inputs_inr request inputs :
  _extract_inputs request = inr inputs <->
  request = mkRequest (Some (in_content_scores inputs))
              (Some (in_content_class inputs))
              (Some (in_content_confidence inputs))
              (Some (in_safety_scores inputs))
              (Some (in_is_safe inputs))
              (Some (in_risk_level inputs))
              (Some (in_ocr_text inputs))
              (Some (in_text_confidence inputs))
              (Some (in_detected_language inputs)).
Proof.
  destruct request as [a b c d e f g h i], inputs.
  unfold _extract_inputs, as_numpy, Py.raise, Py.ret. cbn.
  destruct a; cbn; [| split; [discriminate | intros [=]]].
  destruct b; cbn; [| split; [discriminate | intros [=]]].
  destruct c; cbn; [| split; [discriminate | intros [=]]].
  destruct d; cbn; [| split; [discriminate | intros [=]]].
  destruct e; cbn; [| split; [discriminate | intros [=]]].
  destruct f; cbn; [| split; [discriminate | intros [=]]].
  destruct g; cbn; [| split; [discriminate | intros [=]]].
  destruct h; cbn; [| split; [discriminate | intros [=]]].
  destruct i; cbn; [| split; [discriminate | intros [=]]].
  split; congruence.
Qed.

Lemma evaluate_inr self request v :
  evaluate self request = inr v <->
  exists inputs, _extract_inputs request = inr inputs /\
                 _make_moderation_decision self inputs = inr v.
Proof. unfold evaluate. apply bind_inr. Qed.

(** A verdict is returned on well shaped requests, and only on them. *)
Lemma evaluate_well_shaped self request :
  well_shaped request = true <-> exists v, evaluate self request = inr v.
Proof.
  split.
  - destruct request as [[a|] [[|cc b]|] [[|conf c]|] [[|[|s [|n row]] d]|]
                           [[|safe e]|] [[|risk f]|] [g|] [h|] [i|]];
      try discriminate.
    intros _. unfold evaluate. cbn.
    unfold _evaluate_safety. cbn.
    destruct (combine_three self
                (if negb safe || String.eqb risk "HIGH"
                 then mkFactor REJECT 0.95 "Safety violation"
                 else if String.eqb risk "MEDIUM" || Py.gt n 0.3
                      then mkFactor REVIEW 0.7 "Moderate risk detected"
                      else mkFactor APPROVE s "Content appears safe")
                (_evaluate_content self cc conf)
                (_evaluate_text self (Py.lower (Py.join " " g)) h))
      as (cf & Hcf & _).
    unfold three_factors in Hcf.
    destruct (negb safe || String.eqb risk "HIGH");
      [| destruct (String.eqb risk "MEDIUM" || Py.gt n 0.3)];
      cbn; rewrite Hcf; cbn; eauto.
  - intros (v & Hv). apply evaluate_inr in Hv as (inputs & Hin & Hv).
    apply extract_inputs_inr in Hin as ->.
    apply make_decision_inr in Hv
      as (cc & conf & row & safe & risk & sf & fd
          & Hcc & Hconf & Hrow & Hsafe & Hrisk & Hsf & _).
    apply evaluate_safety_inr in Hsf as (s & n & Hs & Hn & _).
    destruct inputs as [a b c d e f g h i]; cbn in *.
    destruct b; [discriminate |]. destruct c; [discriminate |].
    destruct e; [discriminate |]. destruct f; [discriminate |].
    destruct d as [|row' d]; [discriminate |]. injection Hrow as ->.
    destruct row as [|s' [|n' row]]; [discriminate.. |]. reflexivity.
Qed.

(** C4: the code validates nothing, against the docstring of
    [_extract_inputs] ("Extract and validate input tensors").  Next to a
    bundle within the contract, a content confidence of 5, a row of three
    safety scores and the risk level CRITICAL are each answered with a
    verdict, not with an error; and the error for a request without
    risk_level does not name that tensor. *)
Lemma out_of_contract_bundles_accepted :
  (in_contract (bundle 0.8 [0.9; 0.05; 0; 0; 0] (Some "LOW")) /\
   ~ is_error (handle_request initialize
                 (bundle 0.8 [0.9; 0.05; 0; 0; 0] (Some "LOW")))) /\
  (~ in_contract (bundle 5 [0.9; 0.05; 0; 0; 0] (Some "LOW")) /\
   ~ is_error (handle_request initialize
                 (bundle 5 [0.9; 0.05; 0; 0; 0] (Some "LOW")))) /\
  (~ in_contract (bundle 0.8 [0.9; 0.05; 0] (Some "LOW")) /\
   ~ is_error (handle_request initialize
                 (bundle 0.8 [0.9; 0.05; 0] (Some "LOW")))) /\
  (~ in_contract (bundle 0.8 [0.9; 0.05; 0; 0; 0] (Some "CRITICAL")) /\
   ~ is_error (handle_request initialize
                 (bundle 0.8 [0.9; 0.05; 0; 0; 0] (Some "CRITICAL")))) /\
  (~ in_contract (bundle 0.8 [0.9; 0.05; 0; 0; 0] None) /\
   handle_request initialize (bundle 0.8 [0.9; 0.05; 0; 0; 0] None)
   = ErrorResponse
       "Processing error: 'NoneType' object has no attribute 'as_numpy'" /\
   Py.str_in "risk_level"
     "Processing error: 'NoneType' object has no attribute 'as_numpy'"
   = false).
Proof.
  split; [split | split; [split | split; [split | split; [split | split; [| split]]]]];
    try (vm_compute; tauto).
  - unfold in_contract, bundle, unit_interval; cbn.
    repeat apply conj; try reflexivity; try lra; constructor.
  - intros (_ & H & _). discriminate H.
  - intros (_ & _ & _ & _ & H). cbn in H. rewrite !elem_of_cons, elem_of_nil in H. intuition discriminate.
Qed.

(** * Further properties of the code *)

(** ** Fusion of a dictionary of any size *)

Lemma results_reject (factors : Factors) :
  REJECT ∈ map (fun nf => result (snd nf)) factors <->
  exists nf, nf ∈ factors /\ result (snd nf) = REJECT.
Proof.
  rewrite list_elem_of_In, in_map_iff. split.
  - intros (nf & H & Hin). exists nf. now rewrite list_elem_of_In.
  - intros (nf & Hin & H). exists nf. now rewrite <- list_elem_of_In.
Qed.

Lemma results_review (factors : Factors) :
  REVIEW ∈ map (fun nf => result (snd nf)) factors <->
  exists nf, nf ∈ factors /\ result (snd nf) = REVIEW.
Proof.
  rewrite list_elem_of_In, in_map_iff. split.
  - intros (nf & H & Hin). exists nf. now rewrite list_elem_of_In.
  - intros (nf & Hin & H). exists nf. now rewrite <- list_elem_of_In.
Qed.

Lemma reject_confidences (factors : Factors) (c : Q) :
  c ∈ map confidence (filter (fun f => result f = REJECT) (map snd factors)) <->
  exists nf, nf ∈ factors /\ result (snd nf) = REJECT /\ c = confidence (snd nf).
Proof.
  rewrite list_elem_of_In, in_map_iff. split.
  - intros (f & <- & Hin).
    apply list_elem_of_In, list_elem_of_filter in Hin as [Hres Hin].
    apply list_elem_of_In, in_map_iff in Hin as (nf & <- & Hin).
    exists nf. now rewrite list_elem_of_In.
  - intros (nf & Hin & Hres & ->). exists (snd nf). split; [reflexivity |].
    apply list_elem_of_In, list_elem_of_filter. split; [exact Hres |].
    apply list_elem_of_In, in_map. now apply list_elem_of_In.
Qed.


(** X1: on a dictionary of factors of any size the fusion returns (it
    never raises): REJECTED exactly when some factor is REJECT,
    REVIEW_REQUIRED exactly when none is REJECT and some is REVIEW,
    APPROVED exactly when all are APPROVE.  A REJECTED confidence is the
    greatest confidence among the REJECT factors; otherwise, on a
    non-empty dictionary, it is the mean of all confidences. *)
Theorem combine_any_dictionary self (factors : Factors) :
  exists fd,
    _combine_decision_factors self factors = inr fd /\
    (decision fd = REJECTED <->
     exists nf, nf ∈ factors /\ result (snd nf) = REJECT) /\
    (decision fd = REVIEW_REQUIRED <->
     (forall nf, nf ∈ factors -> result (snd nf) <> REJECT) /\
     exists nf, nf ∈ factors /\ result (snd nf) = REVIEW) /\
    (decision fd = APPROVED <->
     forall nf, nf ∈ factors -> result (snd nf) = APPROVE) /\
    (decision fd = REJECTED ->
     (exists nf, nf ∈ factors /\ result (snd nf) = REJECT /\
                 decision_confidence fd = confidence (snd nf)) /\
     (forall nf, nf ∈ factors -> result (snd nf) = REJECT ->
                 confidence (snd nf) <= decision_confidence fd)) /\
    (decision fd <> REJECTED -> factors <> [] ->
     decision_confidence fd
     = Py.mean (map (fun nf => confidence (snd nf)) factors)).
Proof.
  unfold _combine_decision_factors.
  case_bool_decide as Hrej.
  - destruct (PyFacts.max_nonempty
                (map confidence
                   (filter (fun f => result f = REJECT) (map snd factors))))
      as [m Hm].
    { apply results_reject in Hrej as (nf & Hin & Hres).
      intros Hnil.
      assert (Hc : confidence (snd nf) ∈
                map confidence
                  (filter (fun f => result f = REJECT) (map snd factors)))
        by (apply reject_confidences; eauto).
      rewrite Hnil in Hc. now apply elem_of_nil in Hc. }
    rewrite Hm. cbn. eexists. split; [reflexivity |]. cbn.
    apply PyFacts.max_spec in Hm as [Hin Hall].
    apply results_reject in Hrej.
    split; [tauto |].
    split; [split; [discriminate | intros [Hno _]] |].
    { destruct Hrej as (nf & Hnf & Hres). now apply Hno in Hnf. }
    split; [split; [discriminate | intros Hall'] |].
    { destruct Hrej as (nf & Hnf & Hres). apply Hall' in Hnf. congruence. }
    split; [intros _ | intros H; now destruct H].
    split.
    + apply reject_confidences in Hin as (nf & ? & ? & ?). eauto.
    + intros nf Hnf Hres. rewrite Forall_forall in Hall. apply Hall.
      apply reject_confidences. eauto.
  - rewrite results_reject in Hrej.
    assert (Hno : forall nf, nf ∈ factors -> result (snd nf) <> REJECT)
      by (intros nf Hnf Hres; apply Hrej; eauto).
    case_bool_decide as Hrev; rewrite results_review in Hrev;
      eexists; (split; [reflexivity |]); cbn.
    + split; [split; [discriminate | tauto] |].
      split; [tauto |].
      split; [split; [discriminate | intros Hall] |].
      { destruct Hrev as (nf & Hnf & Hres). apply Hall in Hnf. congruence. }
      split; [discriminate | intros _ _; reflexivity].
    + split; [split; [discriminate | tauto] |].
      split; [split; [discriminate | tauto] |].
      split; [split; [intros _ | reflexivity] |].
      { intros nf Hnf. destruct (result (snd nf)) eqn:Hres; [reflexivity | |].
        - exfalso. apply Hrev. eauto.
        - exfalso. apply Hrej. eauto. }
      split; [discriminate | intros _ _; reflexivity].
Qed.




(** ** From the request to the verdict *)

(** A verdict determines the tensors it was computed from. *)
Lemma evaluate_inv self request v :
  evaluate self request = inr v ->
  exists cs cc ccs conf confs row rows safe safes risk risks ocr tc dl sf,
    request = mkRequest (Some cs) (Some (cc :: ccs)) (Some (conf :: confs))
                (Some (row :: rows)) (Some (safe :: safes))
                (Some (risk :: risks)) (Some ocr) (Some tc) (Some dl) /\
    _evaluate_safety self row safe risk = inr sf /\
    let factors :=
      three_factors sf (_evaluate_content self cc conf)
        (_evaluate_text self (Py.lower (Py.join " " ocr)) tc) in
    decision_factors (processing_metadata v) = factors /\
    _combine_decision_factors self factors
    = inr (mkFinal (moderation_decision v) (confidence_score v)) /\
    extracted_text v = ocr.
Proof.
  intros Hv. apply evaluate_inr in Hv as (inputs & Hin & Hv).
  apply extract_inputs_inr in Hin as ->.
  apply make_decision_inr in Hv
    as (cc & conf & row & safe & risk & sf & fd
        & Hcc & Hconf & Hrow & Hsafe & Hrisk & Hsf & Hfd & ->).
  destruct inputs as [a b c d e f g h i]; cbn in *.
  destruct b as [|cc' b]; [discriminate |]. injection Hcc as ->.
  destruct c as [|conf' c]; [discriminate |]. injection Hconf as ->.
  destruct d as [|row' d]; [discriminate |]. injection Hrow as ->.
  destruct e as [|safe' e]; [discriminate |]. injection Hsafe as ->.
  destruct f as [|risk' f]; [discriminate |]. injection Hrisk as ->.
  exists a, cc, b, conf, c, row, d, safe, e, risk, f, g, h, i, sf.
  split; [reflexivity |]. split; [exact Hsf |]. split; [reflexivity |].
  split; [| reflexivity]. rewrite Hfd. now destruct fd.
Qed.

(** A REJECT factor of confidence [c] makes the verdict REJECTED with a
    confidence of at least [c]. *)
Lemma reject_factor_rejects self sf cf tf f d c :
  _combine_decision_factors self (three_factors sf cf tf) = inr (mkFinal d c) ->
  f ∈ [sf; cf; tf] -> result f = REJECT ->
  d = REJECTED /\ confidence f <= c.
Proof.
  intros Hcomb Hf Hres.
  destruct (combine_reject self sf cf tf) as (c' & Hc' & _ & Hall).
  { rewrite !elem_of_cons, elem_of_nil in Hf.
    rewrite !elem_of_cons. destruct Hf as [-> | [-> | [-> | []]]]; auto. }
  rewrite Hc' in Hcomb. injection Hcomb as <- <-. auto.
Qed.

Lemma safety_reject self row safe risk sf :
  _evaluate_safety self row safe risk = inr sf ->
  safe = false \/ risk = "HIGH" ->
  sf = mkFactor REJECT 0.95 "Safety violation".
Proof.
  intros H Hcond. apply evaluate_safety_inr in H as (s & n & _ & _ & ->).
  destruct Hcond as [-> | ->]; [reflexivity |].
  now rewrite orb_true_r.
Qed.

(** X3: a verdict returned for a request whose is_safe flag is false, or
    whose risk level is HIGH, is REJECTED with a confidence of at least
    0.95, whatever the other inputs and the configuration. *)
Theorem unsafe_or_high_risk_rejected self request v :
  evaluate self request = inr v ->
  (exists rest, req_is_safe request = Some (false :: rest)) \/
  (exists rest, req_risk_level request = Some ("HIGH" :: rest)) ->
  moderation_decision v = REJECTED /\ 0.95 <= confidence_score v.
Proof.
  intros Hv Hcond.
  apply evaluate_inv in Hv
    as (cs & cc & ccs & conf & confs & row & rows & safe & safes & risk & risks
        & ocr & tc & dl & sf & -> & Hsf & _ & Hcomb & _).
  cbn in Hcond.
  assert (Hsf' : sf = mkFactor REJECT 0.95 "Safety violation").
  { apply (safety_reject _ _ _ _ _ Hsf).
    destruct Hcond as [[rest [= -> _]] | [rest [= -> _]]]; auto. }
  subst sf.
  apply (reject_factor_rejects _ _ _ _
           (mkFactor REJECT 0.95 "Safety violation") _ _ Hcomb);
    [| reflexivity].
  apply elem_of_cons. now left.
Qed.

Lemma unsafe_or_high_risk_rejected_witness :
  exists v,
    evaluate initialize (bundle 0.99 [0.99; 0.0] (Some "HIGH")) = inr v /\
    moderation_decision v = REJECTED /\ 0.95 <= confidence_score v.
Proof.
  eexists. split; [vm_compute; reflexivity |].
  apply (unsafe_or_high_risk_rejected initialize
           (bundle 0.99 [0.99; 0.0] (Some "HIGH"))).
  - vm_compute. reflexivity.
  - right. exists []. reflexivity.
Defined.

(** X4: a verdict returned for a request whose class id is a sensitive
    category is REJECTED, however low the content confidence, with a
    confidence of at least that content confidence. *)
Theorem sensitive_category_rejected self request v cc ccs conf confs :
  evaluate self request = inr v ->
  req_content_class request = Some (cc :: ccs) ->
  req_content_confidence request = Some (conf :: confs) ->
  cc ∈ sensitive_categories self ->
  moderation_decision v = REJECTED /\ conf <= confidence_score v.
Proof.
  intros Hv Hcc Hconf Hsens.
  apply evaluate_inv in Hv
    as (cs & cc' & ccs' & conf' & confs' & row & rows & safe & safes & risk
        & risks & ocr & tc & dl & sf & -> & Hsf & _ & Hcomb & _).
  cbn in Hcc, Hconf. injection Hcc as -> ->. injection Hconf as -> ->.
  assert (Hcf : _evaluate_content self cc conf
                = mkFactor REJECT conf "Sensitive category").
  { unfold _evaluate_content. now rewrite bool_decide_eq_true_2. }
  rewrite Hcf in Hcomb.
  apply (reject_factor_rejects _ _ _ _
           (mkFactor REJECT conf "Sensitive category") _ _ Hcomb);
    [| reflexivity].
  apply elem_of_cons. right. apply elem_of_cons. now left.
Qed.

Lemma sensitive_category_rejected_witness :
  exists v,
    evaluate initialize
      (mkRequest (Some []) (Some [940%Z]) (Some [0.01]) (Some [[0.99; 0.0]])
                 (Some [true]) (Some ["LOW"]) (Some []) (Some []) (Some []))
    = inr v /\
    moderation_decision v = REJECTED /\ 0.01 <= confidence_score v.
Proof.
  eexists. split; [vm_compute; reflexivity |].
  apply (sensitive_category_rejected initialize
           (mkRequest (Some []) (Some [940%Z]) (Some [0.01])
                      (Some [[0.99; 0.0]]) (Some [true]) (Some ["LOW"])
                      (Some []) (Some []) (Some []))
           _ 940%Z [] 0.01 []).
  - vm_compute. reflexivity.
  - reflexivity.
  - reflexivity.
  - apply (bool_decide_eq_true_1 _). vm_compute. reflexivity.
Defined.

(** ** Letter case and fragments of the OCR text *)

Lemma append_cons (x : ascii) (a b : string) :
  String x a +:+ b = String x (a +:+ b).
Proof. reflexivity. Qed.

Lemma append_assoc (a b c : string) : (a +:+ b) +:+ c = a +:+ b +:+ c.
Proof.
  induction a as [|x a IH]; [reflexivity |]. now rewrite !append_cons, IH.
Qed.

Lemma append_nil_r (a : string) : a +:+ "" = a.
Proof.
  induction a as [|x a IH]; [reflexivity |]. now rewrite append_cons, IH.
Qed.

Lemma lower_app (a b : string) :
  Py.lower (a +:+ b) = Py.lower a +:+ Py.lower b.
Proof.
  induction a as [|x a IH]; [reflexivity |].
  rewrite append_cons. cbn [Py.lower]. now rewrite append_cons, IH.
Qed.

Lemma lower_join (sep : string) (l : list string) :
  Py.lower (Py.join sep l) = Py.join (Py.lower sep) (map Py.lower l).
Proof.
  induction l as [|x l IH]; [reflexivity |].
  destruct l as [|y l]; [reflexivity |].
  cbn [Py.join map] in *. now rewrite !lower_app, IH.
Qed.

Lemma all_space_app (a b : string) :
  all_space (a +:+ b) = all_space a && all_space b.
Proof.
  induction a as [|x a IH]; [reflexivity |].
  rewrite append_cons. cbn [all_space]. now rewrite IH, andb_assoc.
Qed.

Lemma substring_refl (t : string) : substring t t.
Proof. exists "", "". cbn. now rewrite append_nil_r. Qed.

Lemma substring_trans (a b c : string) :
  substring a b -> substring b c -> substring a c.
Proof.
  intros (p & q & ->) (p' & q' & ->).
  exists (p' +:+ p), (q +:+ q'). now rewrite !append_assoc.
Qed.

Lemma substring_lower (k t : string) :
  substring k t -> substring (Py.lower k) (Py.lower t).
Proof.
  intros (p & q & ->). exists (Py.lower p), (Py.lower q).
  now rewrite !lower_app.
Qed.

Lemma substring_not_blank (k t : string) :
  substring k t -> all_space k = false -> all_space t = false.
Proof.
  intros (p & q & ->) Hk. rewrite !all_space_app, Hk.
  now rewrite andb_false_r.
Qed.

Lemma substring_join (sep : string) (l : list string) (x : string) :
  x ∈ l -> substring x (Py.join sep l).
Proof.
  induction l as [|y l IH]; intros Hx; [now apply elem_of_nil in Hx |].
  apply elem_of_cons in Hx as [-> | Hx].
  - destruct l as [|z l]; [apply substring_refl |].
    exists "", (sep +:+ Py.join sep (z :: l)). reflexivity.
  - destruct l as [|z l]; [now apply elem_of_nil in Hx |].
    apply (substring_trans _ (Py.join sep (z :: l))); [now apply IH |].
    exists (y +:+ sep), "". cbn [Py.join].
    now rewrite append_nil_r, append_assoc.
Qed.

(** A keyword that occurs in a non-blank text makes the text factor a
    REJECT of confidence 0.9. *)
Lemma evaluate_text_keyword self text tc k :
  k ∈ blocked_keywords self -> substring k text -> all_space text = false ->
  exists kw,
    _evaluate_text self text tc
    = mkFactor REJECT 0.9 ("Blocked keyword: " +:+ kw).
Proof.
  intros Hk Hsub Hblank. unfold _evaluate_text.
  destruct (Py.strip text) eqn:Hs.
  { apply PyFacts.strip_empty in Hs. congruence. }
  cbn. destruct (scan_keywords (blocked_keywords self) text) as [kw|] eqn:Hscan.
  - eauto.
  - apply PyFacts.scan_keywords_None in Hscan.
    rewrite Forall_forall in Hscan. specialize (Hscan k Hk).
    apply PyFacts.str_in_spec in Hsub. congruence.
Qed.

(** X5: when an OCR fragment contains, in any letter case, a non-blank
    blocked keyword, a request of the right shape is REJECTED with a
    confidence of at least 0.9. *)
Theorem blocked_keyword_rejected self request texts fragment u :
  well_shaped request = true ->
  req_ocr_text request = Some texts ->
  fragment ∈ texts -> substring u fragment ->
  Py.lower u ∈ blocked_keywords self ->
  all_space (Py.lower u) = false ->
  exists v,
    evaluate self request = inr v /\
    moderation_decision v = REJECTED /\
    0.9 <= confidence_score v.
Proof.
  intros Hshape Hocr Hfrag Hu Hk Hblank.
  apply (evaluate_well_shaped self) in Hshape as [v Hv].
  exists v. split; [exact Hv |].
  apply evaluate_inv in Hv
    as (cs & cc & ccs & conf & confs & row & rows & safe & safes & risk
        & risks & ocr & tc & dl & sf & -> & _ & _ & Hcomb & _).
  cbn in Hocr. injection Hocr as ->.
  assert (Hsub : substring (Py.lower u) (Py.lower (Py.join " " texts))).
  { apply substring_lower, (substring_trans _ fragment); [exact Hu |].
    now apply substring_join. }
  destruct (evaluate_text_keyword self (Py.lower (Py.join " " texts)) tc
              (Py.lower u) Hk Hsub) as [kw Hkw].
  { now apply (substring_not_blank (Py.lower u)). }
  rewrite Hkw in Hcomb.
  apply (reject_factor_rejects _ _ _ _
           (mkFactor REJECT 0.9 ("Blocked keyword: " +:+ kw)) _ _ Hcomb);
    [| reflexivity].
  rewrite !elem_of_cons. auto.
Qed.

Lemma blocked_keyword_rejected_witness :
  exists v,
    evaluate initialize
      (mkRequest (Some []) (Some [281%Z]) (Some [0.9]) (Some [[0.99; 0.0]])
                 (Some [true]) (Some ["LOW"])
                 (Some ["SALE"; "No DRUGS here"]) (Some [0.99]) (Some []))
    = inr v /\
    moderation_decision v = REJECTED /\ 0.9 <= confidence_score v.
Proof.
  apply (blocked_keyword_rejected initialize
           (mkRequest (Some []) (Some [281%Z]) (Some [0.9])
                      (Some [[0.99; 0.0]]) (Some [true]) (Some ["LOW"])
                      (Some ["SALE"; "No DRUGS here"]) (Some [0.99]) (Some []))
           ["SALE"; "No DRUGS here"] "No DRUGS here" "DRUGS"
           eq_refl eq_refl).
  - apply elem_of_cons. right. apply elem_of_cons. now left.
  - exists "No ", " here". reflexivity.
  - apply (bool_decide_eq_true_1 _). vm_compute. reflexivity.
  - reflexivity.
Defined.

(** X6: OCR texts that differ only in letter case give the same decision,
    confidence and factors. *)
Theorem ocr_letter_case_ignored self cs cc conf ss safe risk tc dl
    (texts texts' : list string) :
  map Py.lower texts = map Py.lower texts' ->
  same_decision
    (_make_moderation_decision self
       (mkInputs cs cc conf ss safe risk texts tc dl))
    (_make_moderation_decision self
       (mkInputs cs cc conf ss safe risk texts' tc dl)).
Proof.
  intros Hlow.
  assert (Htext : Py.lower (Py.join " " texts) = Py.lower (Py.join " " texts'))
    by (rewrite !lower_join; now rewrite Hlow).
  unfold same_decision, _make_moderation_decision.
  cbn [in_content_class in_content_confidence in_safety_scores in_is_safe
       in_risk_level in_ocr_text in_text_confidence].
  rewrite Htext.
  destruct (Py.index cc 0); [reflexivity |]. cbn [Py.bind].
  destruct (Py.index conf 0); [reflexivity |]. cbn [Py.bind].
  destruct (Py.index ss 0); [reflexivity |]. cbn [Py.bind].
  destruct (Py.index safe 0); [reflexivity |]. cbn [Py.bind].
  destruct (Py.index risk 0); [reflexivity |]. cbn [Py.bind].
  destruct (_evaluate_safety _ _ _ _); [reflexivity |]. cbn [Py.bind].
  destruct (_combine_decision_factors _ _); [reflexivity |]. cbn.
  repeat split.
Qed.

Lemma ocr_letter_case_ignored_witness :
  same_decision
    (_make_moderation_decision initialize
       (mkInputs [] [281%Z] [0.8] [[0.9; 0.05]] [true] ["LOW"]
                 ["Illegal DRUGS"] [0.9] []))
    (_make_moderation_decision initialize
       (mkInputs [] [281%Z] [0.8] [[0.9; 0.05]] [true] ["LOW"]
                 ["illegal drugs"] [0.9] [])).
Proof.
  apply ocr_letter_case_ignored. reflexivity.
Defined.

(** ** Failures and their texts *)

(** X7: the safety factor reads entries 0 and 1 of the score row before
    it branches: it raises exactly when the row has fewer than two
    entries, also when is_safe is false or the risk level is HIGH. *)
Theorem safety_scores_read_first self row safe risk :
  (exists e, _evaluate_safety self row safe risk = inl e) <->
  (length row < 2)%nat.
Proof.
  destruct row as [|s [|n row]]; cbn.
  - split; [lia | eauto].
  - split; [lia | eauto].
  - split; [| lia]. intros [e He]. unfold _evaluate_safety in He. cbn in He.
    destruct (negb safe || _); [discriminate |].
    destruct (_ || _); discriminate.
Qed.

Lemma index_inl {A} (a : list A) (i : nat) (e : Py.exn) :
  Py.index a i = inl e ->
  (length a <= i)%nat /\
  e = Py.IndexError ("index " +:+ Py.str_of_nat i
                     +:+ " is out of bounds for axis 0 with size "
                     +:+ Py.str_of_nat (length a)).
Proof.
  unfold Py.index. destruct (nth_error a i) eqn:E; [discriminate |].
  intros [= <-]. split; [| reflexivity]. now apply nth_error_None.
Qed.

Lemma index0_inl {A} (a : list A) (e : Py.exn) :
  Py.index a 0 = inl e ->
  e = Py.IndexError "index 0 is out of bounds for axis 0 with size 0".
Proof.
  intros H. apply index_inl in H as [Hlen ->].
  destruct a; [reflexivity | cbn in Hlen; lia].
Qed.

Lemma extract_inputs_inl request e :
  _extract_inputs request = inl e ->
  e = Py.AttributeError "'NoneType' object has no attribute 'as_numpy'".
Proof.
  destruct request as [a b c d f g h i j].
  unfold _extract_inputs, as_numpy, Py.raise, Py.ret. cbn.
  destruct a; cbn; [| congruence]. destruct b; cbn; [| congruence].
  destruct c; cbn; [| congruence]. destruct d; cbn; [| congruence].
  destruct f; cbn; [| congruence]. destruct g; cbn; [| congruence].
  destruct h; cbn; [| congruence]. destruct i; cbn; [| congruence].
  destruct j; cbn; [discriminate | congruence].
Qed.

Lemma combine_three_inr self sf cf tf :
  exists fd, _combine_decision_factors self (three_factors sf cf tf) = inr fd.
Proof. destruct (combine_three self sf cf tf) as (c & H & _). eauto. Qed.

Lemma make_decision_inl self inputs e :
  _make_moderation_decision self inputs = inl e ->
  e = Py.IndexError "index 0 is out of bounds for axis 0 with size 0" \/
  e = Py.IndexError "index 1 is out of bounds for axis 0 with size 1".
Proof.
  unfold _make_moderation_decision.
  destruct (Py.index (in_content_class inputs) 0) as [|cc] eqn:E1; cbn [Py.bind];
    [intros [= <-]; left; eapply index0_inl, E1 |].
  destruct (Py.index (in_content_confidence inputs) 0) as [|conf] eqn:E2; cbn [Py.bind];
    [intros [= <-]; left; eapply index0_inl, E2 |].
  destruct (Py.index (in_safety_scores inputs) 0) as [|row] eqn:E3;
    cbn [Py.bind]; [intros [= <-]; left; eapply index0_inl, E3 |].
  destruct (Py.index (in_is_safe inputs) 0) as [|safe] eqn:E4; cbn [Py.bind];
    [intros [= <-]; left; eapply index0_inl, E4 |].
  destruct (Py.index (in_risk_level inputs) 0) as [|risk] eqn:E5;
    cbn [Py.bind]; [intros [= <-]; left; eapply index0_inl, E5 |].
  destruct (_evaluate_safety self row safe risk) as [e'|sf] eqn:E6;
    cbn [Py.bind].
  - intros [= <-]. unfold _evaluate_safety in E6.
    destruct row as [|s [|n row]]; cbn in E6.
    + left. vm_compute in E6. congruence.
    + right. vm_compute in E6. congruence.
    + destruct (negb safe || _); [discriminate |].
      destruct (_ || _); discriminate.
  - destruct (combine_three_inr self sf
                (_evaluate_content self cc conf)
                (_evaluate_text self
                   (Py.lower (Py.join " " (in_ocr_text inputs)))
                   (in_text_confidence inputs))) as [fd Hfd].
    unfold three_factors in Hfd. rewrite Hfd. discriminate.
Qed.

(** X9: in a batch, every request that lacks a tensor or an indexed entry
    gets an error response at its own position, whatever the other
    requests of the batch. *)
Theorem ill_shaped_requests_fail self (requests : list Request) :
  Forall2 (fun request response =>
             well_shaped request = false -> is_error response)
          requests (execute self requests).
Proof.
  rewrite execute_fmap. induction requests as [|r rs IH]; cbn.
  - constructor.
  - constructor; [| exact IH]. intros Hs.
    destruct (evaluate self r) as [e|v] eqn:E.
    + now rewrite (handle_request_error _ _ _ E).
    + assert (well_shaped r = true)
        by (apply (evaluate_well_shaped self); eauto).
      congruence.
Qed.

(** X10: the responses of a concatenated batch are the responses of the
    first batch followed by those of the second. *)
Theorem execute_app self (batch1 batch2 : list Request) :
  execute self (batch1 ++ batch2)
  = (execute self batch1 ++ execute self batch2)%list.
Proof. rewrite !execute_fmap. apply fmap_app. Qed.

(** X11: a response that is not an error carries the six output tensors
    in a fixed order, each decision being one of APPROVED, REVIEW_REQUIRED
    and REJECTED, and its extracted_text tensor is the ocr_text tensor of
    the request, unchanged. *)
Theorem response_schema self request tensors :
  handle_request self request = Response tensors ->
  exists d c category assessment ocr metadata cs cc conf ss safe risk tc dl,
    tensors = [ ("moderation_decision", ObjectArray [d]);
                ("confidence_score", Float32Array [c]);
                ("content_category", ObjectArray [category]);
                ("safety_assessment", ObjectArray [assessment]);
                ("extracted_text", ObjectArray ocr);
                ("processing_metadata", JsonArray [metadata]) ] /\
    d ∈ ["APPROVED"; "REVIEW_REQUIRED"; "REJECTED"] /\
    request = mkRequest (Some cs) (Some cc) (Some conf) (Some ss) (Some safe)
                (Some risk) (Some ocr) (Some tc) (Some dl).
Proof.
  intros H. destruct (evaluate self request) as [e|v] eqn:E.
  - rewrite (handle_request_error _ _ _ E) in H. discriminate.
  - rewrite (handle_request_verdict _ _ _ E) in H. injection H as <-.
    apply evaluate_inv in E
      as (cs & cc & ccs & conf & confs & row & rows & safe & safes & risk
          & risks & ocr & tc & dl & sf & -> & _ & _ & _ & Hocr).
    unfold _create_response_tensors. rewrite Hocr.
    do 14 eexists. split; [reflexivity |]. split; [| reflexivity].
    destruct (moderation_decision v); cbn; rewrite !elem_of_cons; auto.
Qed.

Lemma response_schema_witness :
  exists d,
    d ∈ ["APPROVED"; "REVIEW_REQUIRED"; "REJECTED"] /\
    nth_error
      [ ("moderation_decision", ObjectArray ["APPROVED"]) ] 0
    = Some ("moderation_decision", ObjectArray [d]).
Proof.
  destruct (response_schema initialize
              (bundle 0.8 [0.9; 0.05; 0; 0; 0] (Some "LOW")) _ eq_refl)
    as (d & c & category & assessment & ocr & metadata & _ & _ & _ & _ & _ & _
        & _ & _ & Htensors & Hd & _).
  exists d. split; [exact Hd |].
  vm_compute in Htensors. now injection Htensors as <- _ _ _ _ _.
Defined.


(** ** Category names *)

Lemma to_int_not_nil (z : Z) :
  Z.to_int z <> Decimal.Pos Decimal.Nil /\
  Z.to_int z <> Decimal.Neg Decimal.Nil.
Proof.
  split; intros H;
    (assert (Hz : z = 0%Z) by (now rewrite <- (DecimalZ.of_to z), H));
    subst z; vm_compute in H; discriminate H.
Qed.

Lemma str_of_int_inj (a b : Z) : Py.str_of_int a = Py.str_of_int b -> a = b.
Proof.
  unfold Py.str_of_int. intros H.
  apply DecimalZ.to_int_inj.
  destruct (to_int_not_nil a) as [Ha1 Ha2], (to_int_not_nil b) as [Hb1 Hb2].
  pose proof (NilZero.isi _ Ha1 Ha2) as Ia.
  pose proof (NilZero.isi _ Hb1 Hb2) as Ib.
  rewrite H in Ia. congruence.
Qed.

Lemma category_map_lookup (z : Z) :
  category_map !! z =
    if decide (z = 281%Z) then Some "tabby_cat"
    else if decide (z = 285%Z) then Some "egyptian_cat"
    else if decide (z = 413%Z) then Some "assault_rifle"
    else if decide (z = 939%Z) then Some "bikini"
    else None.
Proof.
  unfold category_map.
  repeat (case_decide; [subst z; reflexivity |]).
  rewrite !lookup_insert_ne by congruence. apply lookup_empty.
Qed.

(** X12: different class ids have different category names. *)
Theorem category_name_injective self (a b : Z) :
  a <> b ->
  _get_content_category_name self a <> _get_content_category_name self b.
Proof.
  intros Hne Heq. apply Hne. revert Heq.
  unfold _get_content_category_name. rewrite !category_map_lookup.
  repeat case_decide; subst; cbn; intros Heq;
    try reflexivity; try discriminate Heq.
  injection Heq as Heq. now apply str_of_int_inj.
Qed.

Lemma category_name_injective_witness :
  _get_content_category_name initialize 414
  <> _get_content_category_name initialize 415.
Proof.
  apply category_name_injective. discriminate.
Defined.




(** ** Missing tensors *)

Lemma all_present_extract request :
  all_present request = true <-> exists inputs, _extract_inputs request = inr inputs.
Proof.
  split.
  - destruct request as [[a|] [b|] [c|] [d|] [e|] [f|] [g|] [h|] [i|]];
      try discriminate. intros _. eexists. reflexivity.
  - intros [inputs H]. apply extract_inputs_inr in H as ->. reflexivity.
Qed.

(** X13: a request gets the error response with the text of the
    AttributeError exactly when it lacks one of the nine tensors, the two
    the decision never reads (content_scores, detected_language)
    included. *)
Theorem missing_tensor_response self request :
  all_present request = false <->
  handle_request self request
  = ErrorResponse
      "Processing error: 'NoneType' object has no attribute 'as_numpy'".
Proof.
  split.
  - intros Hmiss.
    destruct (_extract_inputs request) as [e|inputs] eqn:E.
    + rewrite (handle_request_error self request e).
      * now rewrite (extract_inputs_inl _ _ E).
      * unfold evaluate. now rewrite E.
    + assert (all_present request = true)
        by (apply all_present_extract; eauto).
      congruence.
  - intros Hresp.
    destruct (all_present request) eqn:Hall; [| reflexivity].
    apply all_present_extract in Hall as [inputs Hin].
    destruct (evaluate self request) as [e|v] eqn:E.
    + rewrite (handle_request_error _ _ _ E) in Hresp.
      unfold evaluate in E. rewrite Hin in E. cbn in E.
      apply make_decision_inl in E as [-> | ->]; discriminate Hresp.
    + rewrite (handle_request_verdict _ _ _ E) in Hresp. discriminate.
Qed.

(** X8: a request that carries the nine tensors, one of content_class,
    content_confidence, safety_scores, is_safe and risk_level being empty,
    gets the error response with the text of the IndexError of numpy,
    also when the flag or the risk level it does carry would reject; the
    text names no tensor. *)
Theorem empty_tensor_response self request :
  all_present request = true ->
  req_content_class request = Some [] \/
  req_content_confidence request = Some [] \/
  req_safety_scores request = Some [] \/
  req_is_safe request = Some [] \/
  req_risk_level request = Some [] ->
  handle_request self request
  = ErrorResponse
      "Processing error: index 0 is out of bounds for axis 0 with size 0".
Proof.
  intros Hall Hempty.
  apply all_present_extract in Hall as [inputs Hin].
  destruct (evaluate self request) as [e|v] eqn:E.
  - rewrite (handle_request_error _ _ _ E).
    unfold evaluate in E. rewrite Hin in E. cbn [Py.bind] in E.
    apply extract_inputs_inr in Hin. subst request. cbn in Hempty.
    unfold _make_moderation_decision in E.
    destruct (Py.index (in_content_class inputs) 0) as [e1|cc] eqn:E1;
      cbn [Py.bind] in E.
    { injection E as <-. now rewrite (index0_inl _ _ E1). }
    destruct (Py.index (in_content_confidence inputs) 0) as [e2|conf] eqn:E2;
      cbn [Py.bind] in E.
    { injection E as <-. now rewrite (index0_inl _ _ E2). }
    destruct (Py.index (in_safety_scores inputs) 0) as [e3|row] eqn:E3;
      cbn [Py.bind] in E.
    { injection E as <-. now rewrite (index0_inl _ _ E3). }
    destruct (Py.index (in_is_safe inputs) 0) as [e4|safe] eqn:E4;
      cbn [Py.bind] in E.
    { injection E as <-. now rewrite (index0_inl _ _ E4). }
    destruct (Py.index (in_risk_level inputs) 0) as [e5|risk] eqn:E5;
      cbn [Py.bind] in E.
    { injection E as <-. now rewrite (index0_inl _ _ E5). }
    exfalso.
    destruct Hempty as [H | [H | [H | [H | H]]]]; injection H as H;
      rewrite H in *; discriminate.
  - exfalso. apply evaluate_inv in E
      as (cs & cc & ccs & conf & confs & row & rows & safe & safes & risk
          & risks & ocr & tc & dl & sf & -> & _).
    cbn in Hempty. intuition discriminate.
Qed.

Lemma empty_tensor_response_witness :
  handle_request initialize
    (mkRequest (Some []) (Some [281%Z]) (Some [0.8]) (Some [[0.9; 0.05]])
               (Some []) (Some ["HIGH"]) (Some []) (Some []) (Some []))
  = ErrorResponse
      "Processing error: index 0 is out of bounds for axis 0 with size 0".
Proof.
  apply empty_tensor_response; [reflexivity |].
  right. right. right. left. reflexivity.
Defined.


(** ** What the safety factor reads *)

(** X14: a risk level other than HIGH and MEDIUM (the comparison is case
    sensitive) gives the same decision, confidence and factors as LOW. *)
Theorem unknown_risk_level_as_low self cs cc conf ss safe risk risks ocr tc dl :
  risk <> "HIGH" -> risk <> "MEDIUM" ->
  same_decision
    (_make_moderation_decision self
       (mkInputs cs cc conf ss safe (risk :: risks) ocr tc dl))
    (_make_moderation_decision self
       (mkInputs cs cc conf ss safe ("LOW" :: risks) ocr tc dl)).
Proof.
  intros Hhigh Hmed.
  pose proof (proj2 (String.eqb_neq _ _) Hhigh) as Eh.
  pose proof (proj2 (String.eqb_neq _ _) Hmed) as Em.
  unfold same_decision, _make_moderation_decision.
  cbn [in_content_class in_content_confidence in_safety_scores in_is_safe
       in_risk_level in_ocr_text in_text_confidence].
  destruct (Py.index cc 0); [reflexivity |]. cbn [Py.bind].
  destruct (Py.index conf 0); [reflexivity |]. cbn [Py.bind].
  destruct (Py.index ss 0) as [|row]; [reflexivity |]. cbn [Py.bind].
  destruct (Py.index safe 0) as [|is_safe]; [reflexivity |].
  cbn [Py.bind Py.index nth_error Py.ret].
  unfold _evaluate_safety. rewrite Eh, Em.
  change (String.eqb "LOW" "HIGH") with false.
  change (String.eqb "LOW" "MEDIUM") with false.
  destruct (Py.index row 0); [reflexivity |]. cbn [Py.bind].
  destruct (Py.index row 1); [reflexivity |]. cbn [Py.bind].
  destruct (negb is_safe || false); [| destruct (false || _)];
    cbn [Py.bind Py.ret];
    (destruct (_combine_decision_factors _ _); [reflexivity |]);
    cbn; repeat split.
Qed.

Lemma unknown_risk_level_as_low_witness :
  same_decision
    (_make_moderation_decision initialize
       (mkInputs [] [281%Z] [0.8] [[0.9; 0.05]] [true] ["high"] [] [] []))
    (_make_moderation_decision initialize
       (mkInputs [] [281%Z] [0.8] [[0.9; 0.05]] [true] ["LOW"] [] [] [])).
Proof.
  apply unknown_risk_level_as_low; discriminate.
Defined.

(** The decision on three factors is as severe as the most severe of
    them. *)
Lemma combine_three_severity self sf cf tf fd :
  _combine_decision_factors self (three_factors sf cf tf) = inr fd ->
  decision_severity (decision fd)
  = Nat.max (severity (result sf))
            (Nat.max (severity (result cf)) (severity (result tf))).
Proof.
  destruct (combine_three self sf cf tf) as (c & Hc & _).
  rewrite Hc. intros [= <-]. cbn [decision].
  destruct (result sf), (result cf), (result tf); reflexivity.
Qed.


Lemma evaluate_safety_two self s n others safe risk :
  _evaluate_safety self (s :: n :: others) safe risk
  = inr (if negb safe || String.eqb risk "HIGH"
         then mkFactor REJECT 0.95 "Safety violation"
         else if String.eqb risk "MEDIUM" || Py.gt n 0.3
              then mkFactor REVIEW 0.7 "Moderate risk detected"
              else mkFactor APPROVE s "Content appears safe").
Proof.
  unfold _evaluate_safety. cbn.
  destruct (negb safe || _); [reflexivity |]. now destruct (_ || _).
Qed.

(** X15: of the safety scores only entries 0 and 1 of the first row are
    read: changing the other entries, or the other rows, changes neither
    the decision nor the confidence nor the factors. *)
Theorem other_risk_axes_ignored self cs cc conf s n others others' rows rows'
    safe risk ocr tc dl :
  same_decision
    (_make_moderation_decision self
       (mkInputs cs cc conf ((s :: n :: others) :: rows) safe risk ocr tc dl))
    (_make_moderation_decision self
       (mkInputs cs cc conf ((s :: n :: others') :: rows') safe risk ocr tc dl)).
Proof.
  unfold same_decision, _make_moderation_decision.
  cbn [in_content_class in_content_confidence in_safety_scores in_is_safe
       in_risk_level in_ocr_text in_text_confidence].
  destruct (Py.index cc 0); [reflexivity |]. cbn [Py.bind].
  destruct (Py.index conf 0); [reflexivity |].
  cbn [Py.bind Py.index nth_error Py.ret].
  destruct (Py.index safe 0) as [|is_safe]; [reflexivity |]. cbn [Py.bind].
  destruct (Py.index risk 0) as [|level]; [reflexivity |]. cbn [Py.bind].
  rewrite !evaluate_safety_two. cbn [Py.bind].
  destruct (_combine_decision_factors _ _); [reflexivity |]. cbn.
  repeat split.
Qed.


(** ** Keywords and fragments *)

Lemma prefix_before_space (k a b : string) :
  no_space k = true ->
  String.prefix k (a +:+ " " +:+ b) = String.prefix k a.
Proof.
  revert a. induction k as [|c k IH]; intros a Hk.
  - now destruct a.
  - cbn in Hk. apply andb_true_iff in Hk as [Hc Hk].
    destruct a as [|x a].
    + change ("" +:+ " " +:+ b) with (String " " b). simpl.
      destruct (ascii_dec c " ") as [-> | _]; [discriminate | reflexivity].
    + rewrite append_cons. simpl.
      destruct (ascii_dec c x); [now apply IH | reflexivity].
Qed.

Lemma str_in_across_space (k a b : string) :
  no_space k = true ->
  Py.str_in k (a +:+ " " +:+ b) = Py.str_in k a || Py.str_in k b.
Proof.
  intros Hk. induction a as [|x a IH].
  - change ("" +:+ " " +:+ b) with (String " " b).
    cbn [Py.str_in].
    change (String " " b) with ("" +:+ " " +:+ b) at 1.
    rewrite (prefix_before_space k "" b Hk). now rewrite orb_false_r.
  - rewrite append_cons. cbn [Py.str_in].
    rewrite <- append_cons, (prefix_before_space k (String x a) b Hk), IH.
    now rewrite orb_assoc.
Qed.

Lemma str_in_join (k : string) (l : list string) :
  no_space k = true -> k <> "" ->
  Py.str_in k (Py.join " " l) = existsb (Py.str_in k) l.
Proof.
  intros Hk Hne. induction l as [|x l IH].
  - cbn. destruct k; [congruence | reflexivity].
  - destruct l as [|y l].
    + cbn. now rewrite orb_false_r.
    + cbn [Py.join existsb] in *. now rewrite str_in_across_space, IH.
Qed.

Lemma no_space_not_blank (k : string) :
  no_space k = true -> k <> "" -> all_space k = false.
Proof.
  destruct k as [|c k]; [congruence |]. cbn. intros H _.
  apply andb_true_iff in H as [H _]. apply negb_true_iff in H. now rewrite H.
Qed.

(** X20: when no blocked keyword is empty or contains white space, the
    text factor is REJECT exactly when a single OCR fragment contains a
    keyword, the fragment taken in lower case; a keyword broken over two
    fragments is not found. *)
Theorem text_rejected_by_a_fragment self (texts : list string) tc :
  Forall (fun k => k <> "" /\ no_space k = true) (blocked_keywords self) ->
  result (_evaluate_text self (Py.lower (Py.join " " texts)) tc) = REJECT <->
  exists k fragment,
    k ∈ blocked_keywords self /\ fragment ∈ texts /\
    substring k (Py.lower fragment).
Proof.
  intros Hks. rewrite Forall_forall in Hks.
  rewrite lower_join. change (Py.lower " ") with " ".
  set (text := Py.join " " (map Py.lower texts)).
  assert (Hin : forall k, k ∈ blocked_keywords self ->
            Py.str_in k text = true <->
            exists fragment, fragment ∈ texts /\
                             substring k (Py.lower fragment)).
  { intros k Hk. destruct (Hks k Hk) as [Hne Hns]. unfold text.
    rewrite str_in_join by assumption. rewrite existsb_exists. split.
    - intros (f & Hf & Hsub). apply in_map_iff in Hf as (fragment & <- & Hf).
      exists fragment. split; [now apply list_elem_of_In |].
      now apply PyFacts.str_in_spec.
    - intros (fragment & Hf & Hsub). exists (Py.lower fragment).
      split; [apply in_map; now apply list_elem_of_In |].
      now apply PyFacts.str_in_spec. }
  split.
  - unfold _evaluate_text.
    destruct (negb _); [discriminate |].
    destruct (scan_keywords _ _) as [kw|] eqn:Hscan.
    + intros _. apply PyFacts.scan_keywords_Some in Hscan
        as (pre & post & Hsplit & Hkw & _).
      assert (Hkw' : kw ∈ blocked_keywords self).
      { rewrite Hsplit. apply elem_of_app. right. apply elem_of_cons. now left. }
      apply (Hin kw Hkw') in Hkw as (fragment & ? & ?). eauto.
    + now destruct (Py.lt _ _).
  - intros (k & fragment & Hk & Hf & Hsub).
    assert (Hocc : Py.str_in k text = true) by (apply Hin; eauto).
    destruct (Hks k Hk) as [Hne Hns].
    destruct (evaluate_text_keyword self text tc k Hk) as [kw ->];
      [now apply PyFacts.str_in_spec | | reflexivity].
    apply (substring_not_blank k); [now apply PyFacts.str_in_spec |].
    now apply no_space_not_blank.
Qed.

Lemma text_rejected_by_a_fragment_witness :
  result (_evaluate_text initialize
            (Py.lower (Py.join " " ["Whatever"; "works"])) [0.9])
  = REJECT.
Proof.
  apply (text_rejected_by_a_fragment initialize ["Whatever"; "works"]).
  - repeat (apply List.Forall_cons; [split; [discriminate | reflexivity] |]).
    apply List.Forall_nil.
  - exists "hate", "Whatever". split; [| split].
    + apply (bool_decide_eq_true_1 _). vm_compute. reflexivity.
    + apply elem_of_cons. now left.
    + exists "w", "ver". reflexivity.
Defined.

(** ** The decision in terms of the inputs *)



Lemma no_keyword_occurs (keywords : list string) (text : string) :
  scan_keywords keywords text = None <->
  Forall (fun k => ~ substring k text) keywords.
Proof.
  rewrite PyFacts.scan_keywords_None. apply Forall_iff. intros k.
  split.
  - intros H Hsub. apply PyFacts.str_in_spec in Hsub. congruence.
  - intros H. destruct (Py.str_in k text) eqn:E; [| reflexivity].
    exfalso. apply H. now apply PyFacts.str_in_spec.
Qed.









(** ** Thresholds *)

Lemma lt_irrefl (a : Q) : Py.lt a a = false.
Proof. apply PyFacts.lt_false. lra. Qed.

Lemma evaluate_text_no_confidences self text :
  all_space text = false ->
  0 < text_confidence_threshold self ->
  result (_evaluate_text self text []) <> APPROVE.
Proof.
  intros Hblank Hthr. unfold _evaluate_text.
  destruct (Py.strip text) eqn:Hs.
  { apply PyFacts.strip_empty in Hs. congruence. }
  cbn. destruct (scan_keywords _ _); [discriminate |].
  assert (Hlt : Py.lt 0.0 (text_confidence_threshold self) = true)
    by (apply PyFacts.lt_true; lra).
  cbn. now rewrite Hlt.
Qed.

(** X16: with a positive text threshold, a request whose OCR text is not
    blank and whose text_confidence tensor is empty is never APPROVED. *)
Theorem text_without_confidences_not_approved self request texts :
  well_shaped request = true ->
  req_ocr_text request = Some texts ->
  req_text_confidence request = Some [] ->
  all_space (Py.join " " texts) = false ->
  0 < text_confidence_threshold self ->
  exists v,
    evaluate self request = inr v /\
    moderation_decision v <> APPROVED.
Proof.
  intros Hshape Hocr Htc Hblank Hthr.
  apply (evaluate_well_shaped self) in Hshape as [v Hv].
  exists v. split; [exact Hv |].
  apply evaluate_inv in Hv
    as (cs & cc & ccs & conf & confs & row & rows & safe & safes & risk
        & risks & ocr & tc & dl & sf & -> & _ & _ & Hcomb & _).
  cbn in Hocr, Htc. injection Hocr as ->. injection Htc as ->.
  apply combine_three_severity in Hcomb. cbn [decision] in Hcomb.
  pose proof (evaluate_text_no_confidences self
                (Py.lower (Py.join " " texts))) as Htext.
  rewrite PyFacts.all_space_lower in Htext. specialize (Htext Hblank Hthr).
  intros Happ. rewrite Happ in Hcomb. cbn in Hcomb.
  destruct (result (_evaluate_text _ _ _)); [congruence | |];
    cbn in Hcomb; lia.
Qed.

Lemma text_without_confidences_not_approved_witness :
  exists v,
    evaluate initialize
      (mkRequest (Some []) (Some [281%Z]) (Some [0.99]) (Some [[0.99; 0.0]])
                 (Some [true]) (Some ["LOW"]) (Some ["Happy birthday"])
                 (Some []) (Some []))
    = inr v /\
    moderation_decision v <> APPROVED.
Proof.
  apply (text_without_confidences_not_approved initialize
           (mkRequest (Some []) (Some [281%Z]) (Some [0.99])
                      (Some [[0.99; 0.0]]) (Some [true]) (Some ["LOW"])
                      (Some ["Happy birthday"]) (Some []) (Some []))
           ["Happy birthday"] eq_refl eq_refl eq_refl eq_refl).
  reflexivity.
Defined.

(** X17: the thresholds are inclusive on the approving side: a content
    confidence equal to its threshold, an nsfw score equal to 0.3 and a
    mean text confidence equal to its threshold are approved. *)
Theorem thresholds_are_inclusive self :
  (forall cc,
     cc ∉ sensitive_categories self ->
     result (_evaluate_content self cc (content_confidence_threshold self))
     = APPROVE) /\
  (forall safe_score others,
     exists f,
       _evaluate_safety self (safe_score :: 0.3 :: others) true "LOW" = inr f /\
       result f = APPROVE) /\
  (forall text c cs,
     all_space text = false ->
     Forall (fun k => ~ substring k text) (blocked_keywords self) ->
     Py.mean (c :: cs) == text_confidence_threshold self ->
     result (_evaluate_text self text (c :: cs)) = APPROVE).
Proof.
  split; [| split].
  - intros cc Hcc. unfold _evaluate_content.
    rewrite bool_decide_eq_false_2 by exact Hcc. now rewrite lt_irrefl.
  - intros s others. rewrite evaluate_safety_two. eexists. split; reflexivity.
  - intros text c cs Hblank Hscan Hmean. apply no_keyword_occurs in Hscan.
    unfold _evaluate_text.
    destruct (Py.strip text) eqn:Hs.
    { apply PyFacts.strip_empty in Hs. congruence. }
    cbn [Py.truthy negb]. rewrite Hscan. cbn [length Nat.ltb Nat.leb].
    destruct (Py.lt _ _) eqn:Hlt; [| reflexivity].
    apply PyFacts.lt_true in Hlt. lra.
Qed.

(** ** Monotony of the decision *)

Lemma content_severity_antitone self cc conf conf' :
  conf <= conf' ->
  (severity (result (_evaluate_content self cc conf'))
   <= severity (result (_evaluate_content self cc conf)))%nat.
Proof.
  intros Hle. unfold _evaluate_content.
  destruct (bool_decide _); [reflexivity |].
  destruct (Py.lt conf' _) eqn:E'; destruct (Py.lt conf _) eqn:E; cbn; try lia.
  apply PyFacts.lt_true in E'. apply PyFacts.lt_false in E. lra.
Qed.

(** X18: raising the content confidence never makes the decision more
    severe. *)
Theorem higher_content_confidence_never_worse self cs cc conf conf' confs
    ss safe risk ocr tc dl :
  conf <= conf' ->
  no_more_severe
    (_make_moderation_decision self
       (mkInputs cs cc (conf :: confs) ss safe risk ocr tc dl))
    (_make_moderation_decision self
       (mkInputs cs cc (conf' :: confs) ss safe risk ocr tc dl)).
Proof.
  intros Hle. unfold no_more_severe, _make_moderation_decision.
  cbn [in_content_class in_content_confidence in_safety_scores in_is_safe
       in_risk_level in_ocr_text in_text_confidence].
  destruct (Py.index cc 0) as [|class]; [reflexivity |].
  cbn [Py.bind Py.index nth_error Py.ret].
  destruct (Py.index ss 0) as [|row]; [reflexivity |]. cbn [Py.bind].
  destruct (Py.index safe 0) as [|is_safe]; [reflexivity |]. cbn [Py.bind].
  destruct (Py.index risk 0) as [|level]; [reflexivity |]. cbn [Py.bind].
  destruct (_evaluate_safety _ _ _ _) as [|sf]; [reflexivity |]. cbn [Py.bind].
  set (tf := _evaluate_text _ _ _).
  destruct (combine_three_inr self sf (_evaluate_content self class conf) tf)
    as [fd Hfd].
  destruct (combine_three_inr self sf (_evaluate_content self class conf') tf)
    as [fd' Hfd'].
  pose proof (combine_three_severity _ _ _ _ _ Hfd) as Hs.
  pose proof (combine_three_severity _ _ _ _ _ Hfd') as Hs'.
  unfold three_factors in Hfd, Hfd'. rewrite Hfd, Hfd'. cbn.
  rewrite Hs, Hs'.
  pose proof (content_severity_antitone self class conf conf' Hle). lia.
Qed.

Lemma higher_content_confidence_never_worse_witness :
  no_more_severe
    (_make_moderation_decision initialize
       (mkInputs [] [281%Z] [0.5] [[0.9; 0.05]] [true] ["LOW"] [] [] []))
    (_make_moderation_decision initialize
       (mkInputs [] [281%Z] [0.9] [[0.9; 0.05]] [true] ["LOW"] [] [] [])).
Proof.
  apply higher_content_confidence_never_worse. unfold Qle. cbn. lia.
Defined.

Lemma safety_severity_monotone self s s' n n' others others' safe risk f f' :
  n <= n' ->
  _evaluate_safety self (s :: n :: others) safe risk = inr f ->
  _evaluate_safety self (s' :: n' :: others') safe risk = inr f' ->
  (severity (result f) <= severity (result f'))%nat.
Proof.
  intros Hle. rewrite !evaluate_safety_two. intros [= <-] [= <-].
  destruct (negb safe || _); [reflexivity |].
  destruct (String.eqb risk "MEDIUM"); [reflexivity |]. cbn [orb].
  destruct (Py.gt n 0.3) eqn:E; destruct (Py.gt n' 0.3) eqn:E'; cbn; try lia.
  unfold Py.gt in *. apply PyFacts.lt_true in E. apply PyFacts.lt_false in E'.
  lra.
Qed.

(** X19: lowering the nsfw score never makes the decision more severe. *)
Theorem higher_nsfw_score_never_better self cs cc conf s n n' others rows
    safe risk ocr tc dl :
  n <= n' ->
  no_more_severe
    (_make_moderation_decision self
       (mkInputs cs cc conf ((s :: n' :: others) :: rows) safe risk ocr tc dl))
    (_make_moderation_decision self
       (mkInputs cs cc conf ((s :: n :: others) :: rows) safe risk ocr tc dl)).
Proof.
  intros Hle. unfold no_more_severe, _make_moderation_decision.
  cbn [in_content_class in_content_confidence in_safety_scores in_is_safe
       in_risk_level in_ocr_text in_text_confidence].
  destruct (Py.index cc 0) as [|class]; [reflexivity |]. cbn [Py.bind].
  destruct (Py.index conf 0) as [|confidence]; [reflexivity |].
  cbn [Py.bind Py.index nth_error Py.ret].
  destruct (Py.index safe 0) as [|is_safe]; [reflexivity |]. cbn [Py.bind].
  destruct (Py.index risk 0) as [|level]; [reflexivity |]. cbn [Py.bind].
  destruct (_evaluate_safety self (s :: n' :: others) is_safe level)
    as [|sf'] eqn:Esf'; [now rewrite evaluate_safety_two in Esf' |].
  destruct (_evaluate_safety self (s :: n :: others) is_safe level)
    as [|sf] eqn:Esf; [now rewrite evaluate_safety_two in Esf |].
  cbn [Py.bind].
  set (cf := _evaluate_content _ _ _). set (tf := _evaluate_text _ _ _).
  destruct (combine_three_inr self sf cf tf) as [fd Hfd].
  destruct (combine_three_inr self sf' cf tf) as [fd' Hfd'].
  pose proof (combine_three_severity _ _ _ _ _ Hfd) as Hs.
  pose proof (combine_three_severity _ _ _ _ _ Hfd') as Hs'.
  unfold three_factors in Hfd, Hfd'. rewrite Hfd, Hfd'. cbn.
  rewrite Hs, Hs'.
  pose proof (safety_severity_monotone _ _ _ _ _ _ _ _ _ _ _ Hle Esf Esf').
  lia.
Qed.

Lemma higher_nsfw_score_never_better_witness :
  no_more_severe
    (_make_moderation_decision initialize
       (mkInputs [] [281%Z] [0.8] [[0.9; 0.5]] [true] ["LOW"] [] [] []))
    (_make_moderation_decision initialize
       (mkInputs [] [281%Z] [0.8] [[0.9; 0.1]] [true] ["LOW"] [] [] [])).
Proof.
  apply higher_nsfw_score_never_better. unfold Qle. cbn. lia.
Defined.

Lemma lower_char_idem (c : ascii) :
  Py.lower_char (Py.lower_char c) = Py.lower_char c.
Proof. destruct c as [[] [] [] [] [] [] [] []]; reflexivity. Qed.

Lemma lower_idem (s : string) : Py.lower (Py.lower s) = Py.lower s.
Proof.
  induction s as [|c s IH]; cbn; [reflexivity |].
  now rewrite lower_char_idem, IH.
Qed.

Lemma lower_fixed_prefix (k b : string) :
  Py.lower (k +:+ b) = k +:+ b -> Py.lower k = k.
Proof.
  induction k as [|c k IH]; [reflexivity |].
  rewrite append_cons. cbn [Py.lower]. intros [= Hc Hk].
  now rewrite Hc, (IH Hk).
Qed.

Lemma lower_fixed_suffix (a k : string) :
  Py.lower (a +:+ k) = a +:+ k -> Py.lower k = k.
Proof.
  induction a as [|c a IH]; [trivial |].
  rewrite append_cons. cbn [Py.lower]. intros [= _ H]. now apply IH.
Qed.

(** What occurs in a lowercased text is in lower case. *)
Lemma substring_of_lower (k t : string) :
  substring k (Py.lower t) -> Py.lower k = k.
Proof.
  intros (a & b & H).
  apply (lower_fixed_prefix k b), (lower_fixed_suffix a).
  rewrite <- H. apply lower_idem.
Qed.

(** X22: the keyword named by a REJECT text factor is in lower case: the
    text is lowercased before the scan and the keywords are not, so a
    configured keyword with an upper-case letter never matches. *)
Theorem rejecting_keyword_is_lower_case self (texts : list string) tc f :
  f = _evaluate_text self (Py.lower (Py.join " " texts)) tc ->
  result f = REJECT ->
  exists kw,
    kw ∈ blocked_keywords self /\
    reason f = "Blocked keyword: " +:+ kw /\
    Py.lower kw = kw.
Proof.
  intros -> Hres. unfold _evaluate_text in *.
  destruct (negb _); [discriminate |].
  destruct (scan_keywords _ _) as [kw|] eqn:Hscan.
  - exists kw. apply PyFacts.scan_keywords_Some in Hscan
      as (pre & post & Hsplit & Hkw & _).
    split; [| split; [reflexivity |]].
    + rewrite Hsplit. apply elem_of_app. right. apply elem_of_cons. now left.
    + apply PyFacts.str_in_spec in Hkw. now apply substring_of_lower in Hkw.
  - now destruct (Py.lt _ _).
Qed.

Lemma rejecting_keyword_is_lower_case_witness :
  exists kw,
    kw ∈ ["Hate"; "hate"] /\
    reason (_evaluate_text (mkModel 0.85 0.7 0.6 ∅ ["Hate"; "hate"])
              (Py.lower (Py.join " " ["I Hate Mondays"])) [0.9])
    = "Blocked keyword: " +:+ kw /\
    Py.lower kw = kw.
Proof.
  apply (rejecting_keyword_is_lower_case
           (mkModel 0.85 0.7 0.6 ∅ ["Hate"; "hate"])
           ["I Hate Mondays"] [0.9] _ eq_refl).
  reflexivity.
Defined.
